(** * AarogyaAI backend: the request handlers of [main.py] and the entity
    schemas of [schemas.py], embedded as Rocq functions over an explicit
    document store, with the properties of the written specification. *)

From Stdlib Require Import ZArith NArith List String Ascii Bool Lia.
From Stdlib Require Import DecimalString.
From Stdlib Require Import Sorted Permutation.
From Stdlib Require Import Floats.SpecFloat.
Import ListNotations.

Open Scope string_scope.
Open Scope Z_scope.

(* ================================================================== *)
(** * Python floats

    A Python [float] is an IEEE 754 binary64 number.  [spec_float] with
    precision 53 and maximal exponent 1024 is that format; the operations
    round to nearest, ties to even, as CPython's do. *)
(* ================================================================== *)

Module Float64.

Definition prec : Z := 53.
Definition emax : Z := 1024.

Definition float := spec_float.

Definition mul : float -> float -> float := SFmul prec emax.
Definition add : float -> float -> float := SFadd prec emax.
Definition ltb : float -> float -> bool := SFltb.
Definition leb : float -> float -> bool := SFleb.

(** [float(n)] for a Python [int]: the nearest binary64 number. *)
Definition of_int (n : Z) : float := binary_normalize prec emax n 0 false.

(** The literals of [submit_symptoms], each the binary64 number nearest
    to the decimal written in the source. *)
Definition lit_0_15 : float := S754_finite false 5404319552844595 (-55).
Definition lit_0_2  : float := S754_finite false 7205759403792794 (-55).
Definition lit_0_3  : float := S754_finite false 5404319552844595 (-54).
Definition lit_0_6  : float := S754_finite false 5404319552844595 (-53).
Definition lit_0_85 : float := S754_finite false 7656119366529843 (-53).
Definition lit_1_0  : float := S754_finite false 4503599627370496 (-52).
Definition lit_0_0  : float := S754_zero false.

(** [min(a, b)] on two arguments: CPython keeps the first argument and
    replaces it only when a later one compares strictly smaller. *)
Definition py_min (a b : float) : float := if ltb b a then b else a.

(** Floats that are neither NaN nor carry a minus sign on a non-zero
    magnitude. *)
Definition nonneg (x : float) : bool :=
  match x with
  | S754_zero _ => true
  | S754_infinity s => negb s
  | S754_nan => false
  | S754_finite s _ _ => negb s
  end.

(** [signed s x]: [x] is a zero, an infinity or a finite number of sign
    [s]; in particular it is not NaN. *)
Definition signed (s : bool) (x : float) : Prop :=
  match x with
  | S754_zero s' | S754_infinity s' | S754_finite s' _ _ => s' = s
  | S754_nan => False
  end.

(** The exact value [num / 10^2] of a two-decimal literal lies within
    half a unit in the last place of the mantissa [m] at exponent [e]
    (for [e < 0]): [|100 * m - num * 2^(-e)| * 2 <= 100]. *)
Definition nearest_to_hundredths (num : Z) (x : float) : bool :=
  match x with
  | S754_finite false m e =>
      (Z.abs (100 * Zpos m - num * 2 ^ (- e)) * 2 <=? 100)
      && valid_binary prec emax x
  | _ => false
  end.

End Float64.

(* ================================================================== *)
(** * The risk heuristic of [submit_symptoms] *)
(* ================================================================== *)

(** [schemas.py]: [Literal["mild", "moderate", "severe"]]. *)
Inductive Severity := mild | moderate | severe.

Definition Severity_eqb (a b : Severity) : bool :=
  match a, b with
  | mild, mild | moderate, moderate | severe, severe => true
  | _, _ => false
  end.

Definition option_Severity_eqb (a b : option Severity) : bool :=
  match a, b with
  | None, None => true
  | Some x, Some y => Severity_eqb x y
  | _, _ => false
  end.

Module Risk.
Import Float64.

(** The dict literal
    [{None: 0.2, "mild": 0.3, "moderate": 0.6, "severe": 0.85}]. *)
Definition sev_table : list (option Severity * float) :=
  [ (None, lit_0_2); (Some mild, lit_0_3);
    (Some moderate, lit_0_6); (Some severe, lit_0_85) ].

(** Subscription [table[key]]; [None] stands for [KeyError]. *)
Fixpoint subscript (table : list (option Severity * float))
         (key : option Severity) : option float :=
  match table with
  | [] => None
  | (k, v) :: rest =>
      if option_Severity_eqb k key then Some v else subscript rest key
  end.

(** Lines 167-169 of [main.py]:
    [count = len(entry.symptoms)],
    [sev_weight = {...}[entry.severity]],
    [risk = min(1.0, 0.15 * count + sev_weight)]. *)
Definition risk_of (symptoms : list string) (severity : option Severity)
  : option float :=
  let count := Z.of_nat (List.length symptoms) in
  match subscript sev_table severity with
  | None => None
  | Some sev_weight =>
      Some (py_min lit_1_0 (add (mul lit_0_15 (of_int count)) sev_weight))
  end.

(** The formula as the specification writes it. *)
Definition weight (severity : option Severity) : float :=
  match severity with
  | None => lit_0_2
  | Some mild => lit_0_3
  | Some moderate => lit_0_6
  | Some severe => lit_0_85
  end.

Definition spec_risk (n : nat) (severity : option Severity) : float :=
  let x := add (mul lit_0_15 (of_int (Z.of_nat n))) (weight severity) in
  if ltb x lit_1_0 then x else lit_1_0.

End Risk.

(* ================================================================== *)
(** * Values and documents *)
(* ================================================================== *)

(** A naive [datetime] (what [datetime.utcnow()] returns and what the
    store hands back), as its number of microseconds since
    0001-01-01T00:00:00; two naive datetimes compare as these numbers. *)
Definition datetime := Z.

(** A store identifier: the twelve bytes of an ObjectId, as a number. *)
Definition ObjectId := N.

(** The Python values that occur in the documents and responses. *)
Inductive value : Type :=
| VNone
| VBool (b : bool)
| VInt (n : Z)
| VFloat (x : spec_float)
| VStr (s : string)
| VDatetime (t : datetime)
| VObjectId (o : ObjectId)
| VStrList (l : list string).

Definition spec_float_eq_dec (x y : spec_float) : {x = y} + {x <> y}.
Proof.
  decide equality; try apply Z.eq_dec; try apply Pos.eq_dec;
    apply Bool.bool_dec.
Defined.

Definition value_eq_dec (x y : value) : {x = y} + {x <> y}.
Proof.
  decide equality.
  - apply Bool.bool_dec.
  - apply Z.eq_dec.
  - apply spec_float_eq_dec.
  - apply string_dec.
  - apply Z.eq_dec.
  - apply N.eq_dec.
  - apply (list_eq_dec string_dec).
Defined.

Definition value_eqb (x y : value) : bool :=
  if value_eq_dec x y then true else false.

(** [v is None] and [isinstance(v, datetime)]. *)
Definition is_None (v : value) : bool :=
  match v with VNone => true | _ => false end.

Definition is_datetime (v : value) : bool :=
  match v with VDatetime _ => true | _ => false end.

(** A Python [dict] with string keys: the items in insertion order. *)
Definition dict := list (string * value).

Definition keys (d : dict) : list string := map fst d.

(** [d.get(k)]. *)
Fixpoint dict_get (d : dict) (k : string) : option value :=
  match d with
  | [] => None
  | (k', v) :: rest => if String.eqb k' k then Some v else dict_get rest k
  end.

(** [d[k] = v]: an existing key keeps its place, a new key goes last. *)
Fixpoint dict_set (d : dict) (k : string) (v : value) : dict :=
  match d with
  | [] => [(k, v)]
  | (k', v') :: rest =>
      if String.eqb k' k then (k', v) :: rest
      else (k', v') :: dict_set rest k v
  end.

(** [d.update(data)], which is also what the store's [$set] does to a
    document: every item of [data] is assigned in turn. *)
Definition dict_update (d data : dict) : dict :=
  fold_left (fun acc kv => dict_set acc (fst kv) (snd kv)) data d.

(** Truth value of a dict, of a list and of an optional string, as [if x:]
    tests them. *)
Definition truthy_dict (d : dict) : bool :=
  match d with [] => false | _ => true end.

Definition truthy_list {A : Type} (l : list A) : bool :=
  match l with [] => false | _ => true end.

Definition truthy_opt_str (s : option string) : bool :=
  match s with
  | None => false
  | Some s => negb (String.eqb s "")
  end.

(** The two renderings of the Python runtime that the handlers call and
    whose text the properties do not depend on: the builtin [str] and
    [datetime.isoformat]. *)
Class PyRuntime : Type := {
  py_str : value -> string;
  isoformat : datetime -> string
}.

(* ------------------------------------------------------------------ *)
(** ** Ordering of values, as [list.sort] uses it *)

(** Exact comparison of a Python [int] with a [float]. *)
Definition float_scaled (s : bool) (m : positive) : Z :=
  if s then Zneg m else Zpos m.

Definition int_lt_float (n : Z) (x : spec_float) : bool :=
  match x with
  | S754_nan => false
  | S754_infinity s => negb s
  | S754_zero _ => n <? 0
  | S754_finite s m e =>
      if 0 <=? e then n <? float_scaled s m * 2 ^ e
      else n * 2 ^ (- e) <? float_scaled s m
  end.

Definition float_lt_int (x : spec_float) (n : Z) : bool :=
  match x with
  | S754_nan => false
  | S754_infinity s => s
  | S754_zero _ => 0 <? n
  | S754_finite s m e =>
      if 0 <=? e then float_scaled s m * 2 ^ e <? n
      else float_scaled s m <? n * 2 ^ (- e)
  end.

(** [a < b] on two lists of strings: the first differing position
    decides, and a proper prefix is smaller. *)
Fixpoint list_str_ltb (a b : list string) : bool :=
  match a, b with
  | _, [] => false
  | [], _ :: _ => true
  | x :: a', y :: b' =>
      if String.eqb x y then list_str_ltb a' b' else String.ltb x y
  end.

(** [a < b]; [None] is the [TypeError] raised for operands that have no
    order.  [bool] is a subtype of [int]. *)
Definition py_lt (a b : value) : option bool :=
  match a, b with
  | VDatetime s, VDatetime t => Some (s <? t)
  | VStr s, VStr t => Some (String.ltb s t)
  | VObjectId s, VObjectId t => Some (N.ltb s t)
  | VStrList s, VStrList t => Some (list_str_ltb s t)
  | VInt m, VInt n => Some (m <? n)
  | VInt m, VBool c => Some (m <? Z.b2z c)
  | VBool b, VInt n => Some (Z.b2z b <? n)
  | VBool b, VBool c => Some (Z.b2z b <? Z.b2z c)
  | VFloat x, VFloat y => Some (SFltb x y)
  | VInt m, VFloat y => Some (int_lt_float m y)
  | VBool b, VFloat y => Some (int_lt_float (Z.b2z b) y)
  | VFloat x, VInt n => Some (float_lt_int x n)
  | VFloat x, VBool c => Some (float_lt_int x (Z.b2z c))
  | _, _ => None
  end.

(** [list.sort(key=...)] on already computed keys.  The sort is stable;
    it is written here as insertion from the left, each item going behind
    the items that are not greater.  A comparison that raises aborts the
    sort. *)
Fixpoint insert_keyed {A : Type} (x : value * A) (l : list (value * A))
  : option (list (value * A)) :=
  match l with
  | [] => Some [x]
  | y :: rest =>
      match py_lt (fst x) (fst y) with
      | None => None
      | Some true => Some (x :: y :: rest)
      | Some false =>
          match insert_keyed x rest with
          | None => None
          | Some rest' => Some (y :: rest')
          end
      end
  end.

Fixpoint sort_keyed {A : Type} (todo acc : list (value * A))
  : option (list (value * A)) :=
  match todo with
  | [] => Some acc
  | x :: rest =>
      match insert_keyed x acc with
      | None => None
      | Some acc' => sort_keyed rest acc'
      end
  end.

(* ================================================================== *)
(** * Entity schemas ([schemas.py]) and [ProfileUpdate] ([main.py]) *)
(* ================================================================== *)

Inductive Gender := male | female | other | prefer_not_to_say.
Inductive Theme := dark | light | system.
Inductive Role := user | assistant.

Definition Gender_str (g : Gender) : string :=
  match g with
  | male => "male" | female => "female" | other => "other"
  | prefer_not_to_say => "prefer_not_to_say"
  end.

Definition Theme_str (t : Theme) : string :=
  match t with dark => "dark" | light => "light" | system => "system" end.

Definition Role_str (r : Role) : string :=
  match r with user => "user" | assistant => "assistant" end.

Definition Severity_str (s : Severity) : string :=
  match s with
  | mild => "mild" | moderate => "moderate" | severe => "severe"
  end.

(** An optional field as a value: [None] or the field. *)
Definition opt {A : Type} (f : A -> value) (o : option A) : value :=
  match o with None => VNone | Some a => f a end.

(** What the handlers use of pydantic's [BaseModel]: [model_dump()], the
    fields in declaration order, unset optional ones as [None]. *)
Class BaseModel (A : Type) : Type := { model_dump : A -> dict }.

Module UserProfile.
Record t : Type := {
  name : string;
  email : string;
  phone : option string;
  age : option Z;
  gender : option Gender;
  height_cm : option spec_float;
  weight_kg : option spec_float;
  theme : Theme;
  notifications_enabled : bool
}.
End UserProfile.

#[export] Instance UserProfile_model : BaseModel UserProfile.t := {
  model_dump p :=
    [ ("name", VStr (UserProfile.name p));
      ("email", VStr (UserProfile.email p));
      ("phone", opt VStr (UserProfile.phone p));
      ("age", opt VInt (UserProfile.age p));
      ("gender", opt (fun g => VStr (Gender_str g)) (UserProfile.gender p));
      ("height_cm", opt VFloat (UserProfile.height_cm p));
      ("weight_kg", opt VFloat (UserProfile.weight_kg p));
      ("theme", VStr (Theme_str (UserProfile.theme p)));
      ("notifications_enabled", VBool (UserProfile.notifications_enabled p)) ]
}.

Module ChatMessage.
Record t : Type := {
  conversation_id : option string;
  role : Role;
  content : string;
  owner_email : option string
}.
End ChatMessage.

#[export] Instance ChatMessage_model : BaseModel ChatMessage.t := {
  model_dump m :=
    [ ("conversation_id", opt VStr (ChatMessage.conversation_id m));
      ("role", VStr (Role_str (ChatMessage.role m)));
      ("content", VStr (ChatMessage.content m));
      ("owner_email", opt VStr (ChatMessage.owner_email m)) ]
}.

Module SymptomCheck.
Record t : Type := {
  symptoms : list string;
  duration : option string;
  severity : option Severity;
  notes : option string;
  assessment : option string;
  risk_score : option spec_float;
  owner_email : option string
}.
End SymptomCheck.

#[export] Instance SymptomCheck_model : BaseModel SymptomCheck.t := {
  model_dump s :=
    [ ("symptoms", VStrList (SymptomCheck.symptoms s));
      ("duration", opt VStr (SymptomCheck.duration s));
      ("severity",
        opt (fun v => VStr (Severity_str v)) (SymptomCheck.severity s));
      ("notes", opt VStr (SymptomCheck.notes s));
      ("assessment", opt VStr (SymptomCheck.assessment s));
      ("risk_score", opt VFloat (SymptomCheck.risk_score s));
      ("owner_email", opt VStr (SymptomCheck.owner_email s)) ]
}.

(** [main.py], lines 79-87: every field optional, none constrained, and no
    [email] among them. *)
Module ProfileUpdate.
Record t : Type := {
  name : option string;
  phone : option string;
  age : option Z;
  gender : option string;
  height_cm : option spec_float;
  weight_kg : option spec_float;
  theme : option string;
  notifications_enabled : option bool
}.
End ProfileUpdate.

#[export] Instance ProfileUpdate_model : BaseModel ProfileUpdate.t := {
  model_dump c :=
    [ ("name", opt VStr (ProfileUpdate.name c));
      ("phone", opt VStr (ProfileUpdate.phone c));
      ("age", opt VInt (ProfileUpdate.age c));
      ("gender", opt VStr (ProfileUpdate.gender c));
      ("height_cm", opt VFloat (ProfileUpdate.height_cm c));
      ("weight_kg", opt VFloat (ProfileUpdate.weight_kg c));
      ("theme", opt VStr (ProfileUpdate.theme c));
      ("notifications_enabled",
        opt VBool (ProfileUpdate.notifications_enabled c)) ]
}.

(* ================================================================== *)
(** * Failures and the handler monad *)
(* ================================================================== *)

Inductive error : Type :=
| HTTPException (status_code : Z) (detail : string)
| RequestValidationError (param : string)   (* a rejected query parameter *)
| ValidationError (field : string)          (* a rejected model field *)
| StoreUnavailable                          (* no store connection *)
| KeyError                                  (* a failed subscription *)
| TypeError.                                (* unorderable sort keys *)

(** The document store: the documents of every collection in store order,
    and the counter the next identifier is taken from. *)
Record store : Type := {
  collections : string -> list dict;
  next_id : N
}.

(** The module-level [db] of [database.py]: [None] when the connection was
    never configured. *)
Definition database := option store.

(** A handler runs against the database and either raises or returns. *)
Definition M (A : Type) : Type := database -> (error + A) * database.

Definition ret {A : Type} (a : A) : M A := fun db => (inr a, db).

Definition raise {A : Type} (e : error) : M A := fun db => (inl e, db).

Definition bind {A B : Type} (m : M A) (f : A -> M B) : M B :=
  fun db =>
    match m db with
    | (inl e, db') => (inl e, db')
    | (inr a, db') => f a db'
    end.

Notation "x <- m ;; k" := (bind m (fun x => k))
  (at level 61, m at next level, right associativity).

Definition lift {A : Type} (r : error + A) : M A :=
  match r with inl e => raise e | inr a => ret a end.

(** Replace the documents of one collection. *)
Definition set_collection (st : store) (c : string) (docs : list dict)
  : store :=
  {| collections := fun c' => if String.eqb c' c then docs
                              else collections st c';
     next_id := next_id st |}.

(** Append a document to one collection and advance the identifier
    counter. *)
Definition store_insert (st : store) (c : string) (doc : dict) : store :=
  {| collections := fun c' => if String.eqb c' c
                              then (collections st c' ++ [doc])%list
                              else collections st c';
     next_id := N.succ (next_id st) |}.

(** The fields of a dumped model that are not [None]. *)
Definition present (d : dict) : dict :=
  filter (fun kv => negb (is_None (snd kv))) d.

(** A document matches a filter when every filter item is a field of the
    document with an equal value. *)
Definition matches (filter_dict d : dict) : bool :=
  forallb (fun kv => match dict_get d (fst kv) with
                     | Some v => value_eqb v (snd kv)
                     | None => false
                     end) filter_dict.

(* ================================================================== *)
(** * The store adapter ([database.py]) and the driver calls *)
(* ================================================================== *)

Section Handlers.

Context {R : PyRuntime}.

(** Modelled from the spec: [create_document] of [database.py], a module
    that is not among the sources.  Section 4.1, [insert]: the fields of
    the entity, without the unset optional ones, become a new document;
    the store assigns it a unique identifier, which is returned as a
    string; one write.  It fails with [StoreUnavailable] when the
    connection was never established. *)
Definition create_document {A : Type} `{BaseModel A}
           (collection_name : string) (data : A) : M string :=
  fun db =>
    match db with
    | None => (inl StoreUnavailable, db)
    | Some st =>
        let oid := VObjectId (next_id st) in
        let doc := ("_id", oid) :: present (model_dump data) in
        (inr (py_str oid), Some (store_insert st collection_name doc))
    end.

(** Modelled from the spec: [get_documents] of [database.py], a module
    that is not among the sources.  Section 4.1, [query]: at most [limit]
    documents that match every item of the filter by equality, in store
    order; [StoreUnavailable] when the connection was never
    established. *)
Definition get_documents (collection_name : string) (filter_dict : dict)
           (limit : Z) : M (list dict) :=
  fun db =>
    match db with
    | None => (inl StoreUnavailable, db)
    | Some st =>
        (inr (firstn (Z.to_nat limit)
                (filter (matches filter_dict)
                   (collections st collection_name))),
         db)
    end.

(** The driver's [Collection.find_one(filter)]: the first matching
    document, or [None]. *)
Definition find_one (docs : list dict) (filter_dict : dict) : option dict :=
  find (matches filter_dict) docs.

(** What the driver writes for a value: a datetime is kept to the
    millisecond (its microseconds are divided by 1000 and the remainder
    dropped), as a BSON date has no finer unit; other values are kept as
    they are. *)
Definition bson_datetime (t : datetime) : datetime := 1000 * (t / 1000).

Definition bson_value (v : value) : value :=
  match v with
  | VDatetime t => VDatetime (bson_datetime t)
  | _ => v
  end.

Definition bson_doc (d : dict) : dict :=
  map (fun kv => (fst kv, bson_value (snd kv))) d.

(** The driver's [Collection.update_one(filter, {"$set": data})]: the
    first matching document, and only that one, gets the items of
    [data], as the driver writes them. *)
Fixpoint update_one (docs : list dict) (filter_dict data : dict)
  : list dict :=
  match docs with
  | [] => []
  | d :: rest =>
      if matches filter_dict d then dict_update d (bson_doc data) :: rest
      else d :: update_one rest filter_dict data
  end.

(** FastAPI's [Query(default, ge=.., le=..)] on an integer parameter:
    the default when the parameter is not sent, a validation error when
    it is out of range. *)
Definition Query (default ge le : Z) (sent : option Z) : error + Z :=
  match sent with
  | None => inr default
  | Some v =>
      if (ge <=? v) && (v <=? le) then inr v
      else inl (RequestValidationError "limit")
  end.

(** [docs.sort(key=key)]; the key function is called once per item, in
    order, before any comparison.  [key i d] is its [i]-th call. *)
Definition keyed (key : nat -> dict -> value) (docs : list dict)
  : list (value * dict) :=
  map (fun id => (key (fst id) (snd id), snd id))
      (combine (seq 0 (List.length docs)) docs).

Definition list_sort (key : nat -> dict -> value) (docs : list dict)
  : error + list dict :=
  match sort_keyed (keyed key docs) [] with
  | None => inl TypeError
  | Some l => inr (map snd l)
  end.

(* ================================================================== *)
(** * [main.py] *)
(* ================================================================== *)

(** The loop body of [_serialize], lines 32-37. *)
Definition serialize_item (res : dict) (kv : string * value) : dict :=
  let (k, v) := kv in
  if String.eqb k "_id" then dict_set res "id" (VStr (py_str v))
  else
    match v with
    | VDatetime t => dict_set res k (VStr (isoformat t))
    | _ => dict_set res k v
    end.

Definition serialize_doc (doc : dict) : dict :=
  fold_left serialize_item doc [].

(** [_serialize], lines 26-38. *)
Definition _serialize (doc : option dict) : option dict :=
  match doc with
  | None => None
  | Some d => Some (serialize_doc d)
  end.

(** [create_profile], lines 69-76. *)
Definition create_profile (profile : UserProfile.t) : M dict :=
  existing <- get_documents "userprofile"
                [("email", VStr (UserProfile.email profile))] 1 ;;
  if truthy_list existing
  then raise (HTTPException 400 "Profile with this email already exists")
  else
    new_id <- create_document "userprofile" profile ;;
    ret [("id", VStr new_id)].

(** [update_profile], lines 90-101.  [now] is the reading of
    [datetime.utcnow()] on line 99. *)
Definition update_profile (email : string) (changes : ProfileUpdate.t)
           (now : datetime) : M dict :=
  fun db =>
    match db with
    | None => (inl (HTTPException 503 "Database not available"), db)
    | Some st =>
        let coll := collections st "userprofile" in
        let found := find_one coll [("email", VStr email)] in
        if match found with None => true | Some d => negb (truthy_dict d) end
        then (inl (HTTPException 404 "Profile not found"), db)
        else
          let data := filter (fun kv => negb (is_None (snd kv)))
                        (model_dump changes) in
          let data := dict_set data "updated_at" (VDatetime now) in
          (inr [("ok", VBool true)],
           Some (set_collection st "userprofile"
                   (update_one coll [("email", VStr email)] data)))
    end.

(** [get_profile], lines 104-109. *)
Definition get_profile (email : string) : M dict :=
  docs <- get_documents "userprofile" [("email", VStr email)] 1 ;;
  match docs with
  | [] => raise (HTTPException 404 "Profile not found")
  | d :: _ => ret (serialize_doc d)
  end.

(** The filter that the list handlers build from [owner_email]. *)
Definition owner_filter (filt : dict) (owner_email : option string) : dict :=
  if truthy_opt_str owner_email
  then dict_set filt "owner_email" (opt VStr owner_email)
  else filt.

(** [list_reports], lines 119-125. *)
Definition list_reports (owner_email : option string) (limit : option Z)
  : M (list dict) :=
  limit <- lift (Query 25 1 100 limit) ;;
  let filt := owner_filter [] owner_email in
  docs <- get_documents "report" filt limit ;;
  ret (map serialize_doc docs).

(** [chat], lines 129-147. *)
Definition reply_text : string :=
  "I'm your AarogyaAI assistant. While I can't provide medical diagnosis, "
  ++ "I can help you track symptoms and suggest next steps. Could you share more details?".

Definition chat (message : ChatMessage.t) : M dict :=
  user_msg_id <- create_document "chatmessage" message ;;
  let assistant_msg :=
    {| ChatMessage.conversation_id := ChatMessage.conversation_id message;
       ChatMessage.role := assistant;
       ChatMessage.content := reply_text;
       ChatMessage.owner_email := ChatMessage.owner_email message |} in
  assistant_msg_id <- create_document "chatmessage" assistant_msg ;;
  ret [ ("user_message_id", VStr user_msg_id);
        ("assistant_message_id", VStr assistant_msg_id);
        ("reply", VStr reply_text) ].

(** The sort key of line 159, [d.get("created_at", datetime.utcnow())];
    the default is evaluated at every call, [utcnow i] being the clock
    reading of the [i]-th. *)
Definition created_at_key (utcnow : nat -> datetime) (i : nat) (d : dict)
  : value :=
  match dict_get d "created_at" with
  | Some v => v
  | None => VDatetime (utcnow i)
  end.

(** [chat_history], lines 150-160. *)
Definition chat_history (conversation_id owner_email : option string)
           (limit : option Z) (utcnow : nat -> datetime) : M (list dict) :=
  limit <- lift (Query 50 1 200 limit) ;;
  let filt :=
    if truthy_opt_str conversation_id
    then dict_set [] "conversation_id" (opt VStr conversation_id)
    else [] in
  let filt := owner_filter filt owner_email in
  docs <- get_documents "chatmessage" filt limit ;;
  docs <- lift (list_sort (created_at_key utcnow) docs) ;;
  ret (map serialize_doc docs).

(** The [risk_score] constraints of [SymptomCheck], [ge=0.0, le=1.0],
    checked whenever the model is constructed. *)
Definition SymptomCheck_new (s : SymptomCheck.t) : error + SymptomCheck.t :=
  match SymptomCheck.risk_score s with
  | None => inr s
  | Some r =>
      if Float64.leb Float64.lit_0_0 r && Float64.leb r Float64.lit_1_0
      then inr s
      else inl (ValidationError "risk_score")
  end.

Definition assessment_text : string :=
  "Symptoms recorded. If symptoms worsen or you experience severe issues (e.g., chest pain, "
  ++ "difficulty breathing), please seek immediate medical attention.".

(** A request body declared with a model: FastAPI builds the model from
    the body before the handler runs and answers a constraint that fails
    there with a request validation error (status 422). *)
Definition Body {A : Type} (built : error + A) : error + A :=
  match built with
  | inl (ValidationError field) => inl (RequestValidationError field)
  | _ => built
  end.

(** [submit_symptoms], lines 164-185; [entry] is the body as sent, which
    the parameter declaration [entry: SymptomCheck] has validated before
    line 167. *)
Definition submit_symptoms (entry : SymptomCheck.t) : M dict :=
  entry <- lift (Body (SymptomCheck_new entry)) ;;
  match Risk.risk_of (SymptomCheck.symptoms entry)
          (SymptomCheck.severity entry) with
  | None => raise KeyError
  | Some risk =>
      let assessment := assessment_text in
      enriched <- lift (SymptomCheck_new
        {| SymptomCheck.symptoms := SymptomCheck.symptoms entry;
           SymptomCheck.duration := SymptomCheck.duration entry;
           SymptomCheck.severity := SymptomCheck.severity entry;
           SymptomCheck.notes := SymptomCheck.notes entry;
           SymptomCheck.assessment := Some assessment;
           SymptomCheck.risk_score := Some risk;
           SymptomCheck.owner_email := SymptomCheck.owner_email entry |}) ;;
      new_id <- create_document "symptomcheck" enriched ;;
      ret [ ("id", VStr new_id);
            ("risk_score", VFloat risk);
            ("assessment", VStr assessment) ]
  end.

(** [list_symptom_checks], lines 188-194. *)
Definition list_symptom_checks (owner_email : option string)
           (limit : option Z) : M (list dict) :=
  limit <- lift (Query 25 1 100 limit) ;;
  let filt := owner_filter [] owner_email in
  docs <- get_documents "symptomcheck" filt limit ;;
  ret (map serialize_doc docs).

(** [list_reminders], lines 204-210. *)
Definition list_reminders (owner_email : option string) (limit : option Z)
  : M (list dict) :=
  limit <- lift (Query 50 1 100 limit) ;;
  let filt := owner_filter [] owner_email in
  docs <- get_documents "reminder" filt limit ;;
  ret (map serialize_doc docs).

End Handlers.

(* ================================================================== *)
(** * Vocabulary of the properties *)
(* ================================================================== *)

(** Some stored profile carries this email. *)
Definition email_taken (st : store) (email : string) : bool :=
  existsb (matches [("email", VStr email)]) (collections st "userprofile").

(** A submission with the two computed fields as the client sent them. *)
Definition with_client_fields (entry : SymptomCheck.t)
           (assessment : option string) (risk_score : option spec_float)
  : SymptomCheck.t :=
  {| SymptomCheck.symptoms := SymptomCheck.symptoms entry;
     SymptomCheck.duration := SymptomCheck.duration entry;
     SymptomCheck.severity := SymptomCheck.severity entry;
     SymptomCheck.notes := SymptomCheck.notes entry;
     SymptomCheck.assessment := assessment;
     SymptomCheck.risk_score := risk_score;
     SymptomCheck.owner_email := SymptomCheck.owner_email entry |}.

(** The message the chat handler builds as its reply to [message]. *)
Definition reply_to (message : ChatMessage.t) : ChatMessage.t :=
  {| ChatMessage.conversation_id := ChatMessage.conversation_id message;
     ChatMessage.role := assistant;
     ChatMessage.content := reply_text;
     ChatMessage.owner_email := ChatMessage.owner_email message |}.

(** The same message under another role. *)
Definition with_role (message : ChatMessage.t) (r : Role) : ChatMessage.t :=
  {| ChatMessage.conversation_id := ChatMessage.conversation_id message;
     ChatMessage.role := r;
     ChatMessage.content := ChatMessage.content message;
     ChatMessage.owner_email := ChatMessage.owner_email message |}.

(** The document a message is stored as under identifier [oid]. *)
Definition message_doc (oid : ObjectId) (message : ChatMessage.t) : dict :=
  ("_id", VObjectId oid) :: present (model_dump message).

(** What [_serialize] makes of a field value other than the identifier,
    and of a whole item. *)
Definition public_value {R : PyRuntime} (v : value) : value :=
  match v with
  | VDatetime t => VStr (isoformat t)
  | _ => v
  end.

Definition public_item {R : PyRuntime} (kv : string * value)
  : string * value :=
  if String.eqb (fst kv) "_id" then ("id", VStr (py_str (snd kv)))
  else (fst kv, public_value (snd kv)).

(** A representation [_serialize] has nothing left to do on: no [_id]
    key and no datetime value. *)
Definition public_field (kv : string * value) : Prop :=
  fst kv <> "_id" /\ is_datetime (snd kv) = false.

(** A stored [created_at], when there is one, is a datetime. *)
Definition created_at_typed (d : dict) : Prop :=
  match dict_get d "created_at" with
  | None => True
  | Some v => is_datetime v = true
  end.

(** [a] was not created after [b], as far as both say when. *)
Definition created_le (a b : dict) : Prop :=
  forall s t, dict_get a "created_at" = Some (VDatetime s) ->
              dict_get b "created_at" = Some (VDatetime t) -> s <= t.

(** Order of two keyed items whose keys are datetimes. *)
Definition key_le {A : Type} (a b : value * A) : Prop :=
  exists s t, fst a = VDatetime s /\ fst b = VDatetime t /\ s <= t.

(** The key of a keyed document is a datetime, its [created_at] if it has
    one. *)
Definition key_of_created (kd : value * dict) : Prop :=
  exists t, fst kd = VDatetime t
            /\ forall v, dict_get (snd kd) "created_at" = Some v
                         -> v = VDatetime t.

(** The filter [chat_history] builds from its two optional parameters. *)
Definition chat_filter (conversation_id owner_email : option string) : dict :=
  owner_filter
    (if truthy_opt_str conversation_id
     then dict_set [] "conversation_id" (opt VStr conversation_id)
     else [])
    owner_email.

(** What a list endpoint owes its caller for a [limit] parameter as sent:
    a validation error outside [lo, hi]; otherwise a response of at most
    [limit] documents, [default] standing in for a parameter not sent; the
    store is only read. *)
Definition limit_served (default lo hi : Z) (sent : option Z) (st : store)
           (out : (error + list dict) * database) : Prop :=
  match sent with
  | None =>
      exists docs, out = (inr docs, Some st)
                   /\ Z.of_nat (List.length docs) <= default
  | Some v =>
      if (v <? lo) || (hi <? v)
      then out = (inl (RequestValidationError "limit"), Some st)
      else exists docs, out = (inr docs, Some st)
                        /\ Z.of_nat (List.length docs) <= v
  end.

(** The fields an update request provides: those of the body that are not
    null, by name. *)
Definition provided (changes : ProfileUpdate.t) (k : string) : option value :=
  if String.eqb "name" k then option_map VStr (ProfileUpdate.name changes)
  else if String.eqb "phone" k
       then option_map VStr (ProfileUpdate.phone changes)
  else if String.eqb "age" k then option_map VInt (ProfileUpdate.age changes)
  else if String.eqb "gender" k
       then option_map VStr (ProfileUpdate.gender changes)
  else if String.eqb "height_cm" k
       then option_map VFloat (ProfileUpdate.height_cm changes)
  else if String.eqb "weight_kg" k
       then option_map VFloat (ProfileUpdate.weight_kg changes)
  else if String.eqb "theme" k
       then option_map VStr (ProfileUpdate.theme changes)
  else if String.eqb "notifications_enabled" k
       then option_map VBool (ProfileUpdate.notifications_enabled changes)
  else None.

(** The stored profile after an update: the provided fields and the
    modification time, to the millisecond, are written, every other field
    stays. *)
Definition merged (found : dict) (changes : ProfileUpdate.t) (now : datetime)
           (k : string) : option value :=
  if String.eqb k "updated_at" then Some (VDatetime (bson_datetime now))
  else match provided changes k with
       | Some v => Some v
       | None => dict_get found k
       end.

(* ================================================================== *)
(** * A runtime to run the handlers on examples *)
(* ================================================================== *)

Module Render.

Definition digit_char (n : Z) : ascii :=
  match n with
  | 0 => "0" | 1 => "1" | 2 => "2" | 3 => "3" | 4 => "4" | 5 => "5"
  | 6 => "6" | 7 => "7" | 8 => "8" | 9 => "9" | 10 => "a" | 11 => "b"
  | 12 => "c" | 13 => "d" | 14 => "e" | _ => "f"
  end%char.

(** The [width] lowest digits of [n] in base [base], highest first. *)
Fixpoint digits (base : Z) (width : nat) (n : Z) (acc : string) : string :=
  match width with
  | O => acc
  | S w => digits base w (n / base) (String (digit_char (n mod base)) acc)
  end.

(** [str(ObjectId)]: twenty-four hexadecimal digits. *)
Definition ObjectId_str (o : ObjectId) : string := digits 16 24 (Z.of_N o) "".

(** [datetime.isoformat(sep)] of a naive datetime; the date comes from the
    day count by the usual civil-calendar arithmetic on 400-year eras
    that start on the first of March. *)
Definition isoformat_sep (sep : string) (t : datetime) : string :=
  let days := t / 86400000000 in
  let rest := t mod 86400000000 in
  let z := days + 306 in
  let era := z / 146097 in
  let doe := z mod 146097 in
  let yoe := (doe - doe / 1460 + doe / 36524 - doe / 146096) / 365 in
  let doy := doe - (365 * yoe + yoe / 4 - yoe / 100) in
  let mp := (5 * doy + 2) / 153 in
  let d := doy - (153 * mp + 2) / 5 + 1 in
  let m := if mp <? 10 then mp + 3 else mp - 9 in
  let y := yoe + era * 400 + (if m <=? 2 then 1 else 0) in
  let us := rest mod 1000000 in
  let secs := rest / 1000000 in
  (digits 10 4 y "" ++ "-" ++ digits 10 2 m "" ++ "-" ++ digits 10 2 d ""
   ++ sep ++ digits 10 2 (secs / 3600) "" ++ ":"
   ++ digits 10 2 (secs / 60 mod 60) "" ++ ":" ++ digits 10 2 (secs mod 60) ""
   ++ (if Z.eqb us 0 then "" else "." ++ digits 10 6 us ""))%string.

(** [str(v)].  The text of a float (shortest digits that read back) and of
    a list (quoted items) is not worked out here: the examples render
    neither, and a tag stands for it. *)
Definition str (v : value) : string :=
  match v with
  | VNone => "None"
  | VBool true => "True"
  | VBool false => "False"
  | VInt n => NilZero.string_of_int (Z.to_int n)
  | VFloat _ => "<float>"
  | VStr s => s
  | VDatetime t => isoformat_sep " " t
  | VObjectId o => ObjectId_str o
  | VStrList _ => "<list>"
  end.

End Render.

Definition reference_runtime : PyRuntime :=
  {| py_str := Render.str; isoformat := Render.isoformat_sep "T" |}.

(** A store with one profile and three chat messages, the later two
    stored before the earliest. *)
Definition demo_profile : dict :=
  [ ("_id", VObjectId 1%N); ("name", VStr "Ada");
    ("email", VStr "ada@example.org"); ("age", VInt 36);
    ("theme", VStr "dark"); ("notifications_enabled", VBool true) ].

Definition demo_message (oid : ObjectId) (text : string) (t : datetime)
  : dict :=
  [ ("_id", VObjectId oid); ("conversation_id", VStr "c1");
    ("role", VStr "user"); ("content", VStr text);
    ("created_at", VDatetime t) ].

Definition demo_store : store :=
  {| collections := fun c =>
       if String.eqb c "userprofile" then [demo_profile]
       else if String.eqb c "chatmessage"
            then [ demo_message 2%N "second" 63844809909000123;
                   demo_message 3%N "third" 63844809910000000;
                   demo_message 4%N "first" 63844809900000000 ]
            else [];
     next_id := 5%N |}.

Definition demo_user_message : ChatMessage.t :=
  {| ChatMessage.conversation_id := Some "c1";
     ChatMessage.role := user;
     ChatMessage.content := "I have a headache";
     ChatMessage.owner_email := Some "ada@example.org" |}.

Definition demo_age_update : ProfileUpdate.t :=
  {| ProfileUpdate.name := None; ProfileUpdate.phone := None;
     ProfileUpdate.age := Some 31; ProfileUpdate.gender := None;
     ProfileUpdate.height_cm := None; ProfileUpdate.weight_kg := None;
     ProfileUpdate.theme := None;
     ProfileUpdate.notifications_enabled := None |}.

(** A document that has an [id] field of its own next to [_id]. *)
Definition colliding_doc : dict := [("id", VInt 7); ("_id", VObjectId 1%N)].

(* ================================================================== *)
(** * The remaining schemas and handlers *)
(* ================================================================== *)

(** [schemas.py], lines 26-32: the [report_type] literal. *)
Module ReportType.
Inductive t := blood_test | scan | prescription | discharge_summary | other.

Definition str (r : t) : string :=
  match r with
  | blood_test => "blood_test"
  | scan => "scan"
  | prescription => "prescription"
  | discharge_summary => "discharge_summary"
  | other => "other"
  end.
End ReportType.

(** [schemas.py], lines 24-36. *)
Module Report.
Record t : Type := {
  title : string;
  report_type : ReportType.t;
  report_date : option datetime;
  file_url : option string;
  notes : option string;
  owner_email : string
}.
End Report.

#[export] Instance Report_model : BaseModel Report.t | 10 := {
  model_dump r :=
    [ ("title", VStr (Report.title r));
      ("report_type", VStr (ReportType.str (Report.report_type r)));
      ("report_date", opt VDatetime (Report.report_date r));
      ("file_url", opt VStr (Report.file_url r));
      ("notes", opt VStr (Report.notes r));
      ("owner_email", VStr (Report.owner_email r)) ]
}.

(** [schemas.py], lines 56-60. *)
Module Reminder.
Record t : Type := {
  title : string;
  schedule : string;
  active : bool;
  owner_email : option string
}.
End Reminder.

#[export] Instance Reminder_model : BaseModel Reminder.t | 10 := {
  model_dump r :=
    [ ("title", VStr (Reminder.title r));
      ("schedule", VStr (Reminder.schedule r));
      ("active", VBool (Reminder.active r));
      ("owner_email", opt VStr (Reminder.owner_email r)) ]
}.

(** [create_report], lines 113-116. *)
Definition create_report {R : PyRuntime} (report : Report.t) : M dict :=
  new_id <- create_document "report" report ;;
  ret [("id", VStr new_id)].

(** [create_reminder], lines 198-201. *)
Definition create_reminder {R : PyRuntime} (reminder : Reminder.t) : M dict :=
  new_id <- create_document "reminder" reminder ;;
  ret [("id", VStr new_id)].


(** The keys an update can write: the fields of [ProfileUpdate] and the
    modification time. *)
Definition update_keys : list string :=
  [ "name"; "phone"; "age"; "gender"; "height_cm"; "weight_kg"; "theme";
    "notifications_enabled"; "updated_at" ].

(** The stored document of an entity under identifier [oid]. *)
Definition stored_doc {A : Type} `{BaseModel A} (oid : ObjectId) (x : A)
  : dict :=
  ("_id", VObjectId oid) :: present (model_dump x).

(** The filter of the plain list handlers for a given owner parameter. *)
Definition list_filter (owner_email : option string) : dict :=
  owner_filter [] owner_email.

(** The sort key of a document is a datetime or a string. *)
Definition key_is_datetime (v : value) : bool :=
  match v with VDatetime _ => true | _ => false end.

Definition key_is_str (v : value) : bool :=
  match v with VStr _ => true | _ => false end.

(** The stored messages a chat-history query selects, before the sort. *)
Definition chat_selection (st : store)
           (conversation_id owner_email : option string) (n : Z)
  : list dict :=
  firstn (Z.to_nat n)
    (filter (matches (chat_filter conversation_id owner_email))
       (collections st "chatmessage")).

(** A message whose [created_at], if any, is a datetime or a string. *)
Definition datetime_or_str_created (d : dict) : Prop :=
  match dict_get d "created_at" with
  | None => True
  | Some v => key_is_datetime v = true \/ key_is_str v = true
  end.

(** The class of a sort key: [Some true] for a datetime, [Some false] for
    a string. *)
Definition key_class (v : value) : option bool :=
  match v with
  | VDatetime _ => Some true
  | VStr _ => Some false
  | _ => None
  end.

(** A response document that is the public form of a stored document of
    collection [c] whose [owner_email] is [e]. *)
Definition owned_by {R : PyRuntime} (st : store) (c e : string) (r : dict)
  : Prop :=
  exists d, In d (collections st c)
            /\ dict_get d "owner_email" = Some (VStr e)
            /\ r = serialize_doc d.

(** The outcome of a plain list handler: only this owner's documents, or
    the rejection of the limit. *)
Definition scoped_to {R : PyRuntime} (st : store) (c e : string)
           (out : (error + list dict) * database) : Prop :=
  match fst out with
  | inr docs => Forall (owned_by st c e) docs
  | inl err => err = RequestValidationError "limit"
  end.

(** Further example data: a profile and an email the example store does
    not have, an update with an age no profile may carry, a reminder, a
    report and a submission without symptoms, and a store whose chat
    messages disagree on the type of [created_at]. *)
Definition demo_new_profile : UserProfile.t :=
  {| UserProfile.name := "Bob"; UserProfile.email := "bob@example.org";
     UserProfile.phone := None; UserProfile.age := Some 41;
     UserProfile.gender := None; UserProfile.height_cm := None;
     UserProfile.weight_kg := None; UserProfile.theme := light;
     UserProfile.notifications_enabled := false |}.


Definition demo_new_conversation : ChatMessage.t :=
  {| ChatMessage.conversation_id := Some "c2";
     ChatMessage.role := user;
     ChatMessage.content := "hello";
     ChatMessage.owner_email := None |}.

Definition demo_reminder : Reminder.t :=
  {| Reminder.title := "Vitamin D"; Reminder.schedule := "Daily 8:00 AM";
     Reminder.active := true;
     Reminder.owner_email := Some "ada@example.org" |}.

Definition demo_report : Report.t :=
  {| Report.title := "Blood panel";
     Report.report_type := ReportType.blood_test;
     Report.report_date := Some 63844809909000123;
     Report.file_url := None; Report.notes := None;
     Report.owner_email := "ada@example.org" |}.

Definition demo_no_symptoms : SymptomCheck.t :=
  {| SymptomCheck.symptoms := []; SymptomCheck.duration := None;
     SymptomCheck.severity := Some moderate; SymptomCheck.notes := None;
     SymptomCheck.assessment := None; SymptomCheck.risk_score := None;
     SymptomCheck.owner_email := None |}.

Definition demo_mixed_store : store :=
  {| collections := fun c =>
       if String.eqb c "chatmessage"
       then [ demo_message 2%N "dated" 63844809909000123;
              [ ("_id", VObjectId 3%N); ("conversation_id", VStr "c1");
                ("role", VStr "user"); ("content", VStr "imported");
                ("created_at", VStr "2024-02-29") ] ]
       else [];
     next_id := 4%N |}.

(** A submission with two symptoms, and the two scores a client may send
    with it: 0.6, which the schema accepts, and 5.0, which it does not. *)
Definition demo_symptoms : SymptomCheck.t :=
  {| SymptomCheck.symptoms := ["cough"; "fever"];
     SymptomCheck.duration := Some "3 days";
     SymptomCheck.severity := Some moderate; SymptomCheck.notes := None;
     SymptomCheck.assessment := None; SymptomCheck.risk_score := None;
     SymptomCheck.owner_email := Some "ada@example.org" |}.

Definition demo_score_5_0 : spec_float :=
  S754_finite false 5629499534213120 (-50).

(** A store with reports of two owners and reminders of two owners. *)
Definition demo_owned (oid : ObjectId) (title owner : string) : dict :=
  [ ("_id", VObjectId oid); ("title", VStr title);
    ("owner_email", VStr owner) ].

Definition demo_lists_store : store :=
  {| collections := fun c =>
       if String.eqb c "report"
       then [ demo_owned 1%N "Blood panel" "ada@example.org";
              demo_owned 2%N "X-ray" "bob@example.org";
              demo_owned 3%N "Prescription" "ada@example.org" ]
       else if String.eqb c "reminder"
            then [ demo_owned 4%N "Vitamin D" "bob@example.org";
                   demo_owned 5%N "Walk" "ada@example.org" ]
            else [];
     next_id := 6%N |}.

(* ------------------------------------------------------------------ *)
(** ** Sign lemmas for binary64 rounding *)

Open Scope list_scope.

Module Float64Facts.
Import Float64.

Lemma literals_nearest :
  nearest_to_hundredths 15 lit_0_15 = true /\
  nearest_to_hundredths 20 lit_0_2 = true /\
  nearest_to_hundredths 30 lit_0_3 = true /\
  nearest_to_hundredths 60 lit_0_6 = true /\
  nearest_to_hundredths 85 lit_0_85 = true /\
  nearest_to_hundredths 100 lit_1_0 = true.
Proof. repeat split; vm_compute; reflexivity. Qed.

Lemma shr_1_nonneg mrs : 0 <= shr_m mrs -> 0 <= shr_m (shr_1 mrs).
Proof.
  destruct mrs as [m r s]; simpl.
  destruct m as [|p|p]; [ simpl; lia | | lia ].
  destruct p; simpl; lia.
Qed.

Lemma iter_pos_shr_1_nonneg p :
  forall mrs, 0 <= shr_m mrs -> 0 <= shr_m (iter_pos shr_1 p mrs).
Proof.
  induction p as [p IH|p IH|]; intros mrs H; simpl.
  - apply IH, IH, shr_1_nonneg, H.
  - apply IH, IH, H.
  - apply shr_1_nonneg, H.
Qed.

Lemma shr_nonneg mrs e n :
  0 <= shr_m mrs -> 0 <= shr_m (fst (shr mrs e n)).
Proof.
  intros H; unfold shr; destruct n; simpl; auto.
  apply iter_pos_shr_1_nonneg, H.
Qed.

Lemma shr_fexp_nonneg m e l :
  0 <= m -> 0 <= shr_m (fst (shr_fexp prec emax m e l)).
Proof.
  intros H; unfold shr_fexp; apply shr_nonneg.
  destruct l as [|[ | | ]]; exact H.
Qed.

Lemma round_nearest_even_nonneg m l :
  0 <= m -> 0 <= round_nearest_even m l.
Proof.
  intros H; unfold round_nearest_even.
  destruct l as [|[ | | ]]; try lia.
  destruct (Z.even m); lia.
Qed.

Lemma binary_round_aux_signed s m e l :
  0 <= m -> signed s (binary_round_aux prec emax s m e l).
Proof.
  intros H; unfold binary_round_aux.
  pose proof (shr_fexp_nonneg m e l H) as H1.
  destruct (shr_fexp prec emax m e l) as [mrs' e'] eqn:E1; simpl in H1.
  pose proof (shr_fexp_nonneg _ e' loc_Exact
                (round_nearest_even_nonneg _ (loc_of_shr_record mrs') H1))
    as H2.
  destruct (shr_fexp prec emax
              (round_nearest_even (shr_m mrs') (loc_of_shr_record mrs'))
              e' loc_Exact) as [mrs'' e''] eqn:E2; simpl in H2.
  destruct (shr_m mrs'') as [|q|q]; simpl.
  - exact eq_refl.
  - destruct (e'' <=? _); exact eq_refl.
  - lia.
Qed.

Lemma binary_round_signed s m e : signed s (binary_round prec emax s m e).
Proof.
  unfold binary_round.
  destruct (shl_align m e _) as [mz ez].
  apply binary_round_aux_signed; lia.
Qed.

Lemma of_int_signed n : 0 <= n -> signed false (of_int n).
Proof.
  intros H; unfold of_int, binary_normalize.
  destruct n as [|p|p]; [ reflexivity | apply binary_round_signed | lia ].
Qed.

Lemma mul_signed m e y :
  signed false y -> signed false (mul (S754_finite false m e) y).
Proof.
  destruct y as [s|s| |s my ey]; simpl; intros H; subst; try reflexivity;
    try contradiction.
  apply binary_round_aux_signed; lia.
Qed.

Lemma add_signed x m e :
  signed false x -> signed false (add x (S754_finite false m e)).
Proof.
  destruct x as [s|s| |s mx ex]; simpl; intros H; subst; try reflexivity;
    try contradiction.
  unfold cond_Zopp, binary_normalize.
  destruct (shl_align mx ex (Z.min ex e)) as [a ea].
  destruct (shl_align m e (Z.min ex e)) as [b eb].
  simpl. apply binary_round_signed.
Qed.

Lemma signed_nonneg x : signed false x -> nonneg x = true.
Proof. destruct x; simpl; intros H; subst; auto. Qed.

Lemma nonneg_leb_zero x : nonneg x = true -> leb lit_0_0 x = true.
Proof. destruct x as [s|[|]| |[|] m e]; simpl; intros H; auto; discriminate. Qed.

Lemma ltb_leb x y : ltb x y = true -> leb x y = true.
Proof.
  unfold ltb, leb, SFltb, SFleb.
  destruct (SFcompare x y) as [[ | | ]|]; auto.
Qed.

(** [min(1.0, x)] is at most one, whatever [x] is. *)
Lemma py_min_le_one x : leb (py_min lit_1_0 x) lit_1_0 = true.
Proof.
  unfold py_min. destruct (ltb x lit_1_0) eqn:E.
  - apply ltb_leb, E.
  - reflexivity.
Qed.

Lemma py_min_nonneg x : nonneg x = true -> nonneg (py_min lit_1_0 x) = true.
Proof. unfold py_min; intros H; destruct (ltb x lit_1_0); auto. Qed.

End Float64Facts.

Module RiskFacts.
Import Float64 Float64Facts Risk.

Lemma subscript_sev_table sev :
  subscript sev_table sev = Some (weight sev).
Proof. destruct sev as [[ | | ]|]; reflexivity. Qed.

Lemma weight_finite sev : exists m e, weight sev = S754_finite false m e.
Proof. destruct sev as [[ | | ]|]; do 2 eexists; reflexivity. Qed.

Lemma risk_of_spec symptoms sev :
  risk_of symptoms sev = Some (spec_risk (List.length symptoms) sev).
Proof.
  unfold risk_of. rewrite subscript_sev_table. reflexivity.
Qed.

Lemma spec_risk_nonneg n sev : nonneg (spec_risk n sev) = true.
Proof.
  change (spec_risk n sev)
    with (py_min lit_1_0
            (add (mul lit_0_15 (of_int (Z.of_nat n))) (weight sev))).
  apply py_min_nonneg, signed_nonneg.
  destruct (weight_finite sev) as (m & e & ->).
  apply add_signed, mul_signed, of_int_signed. lia.
Qed.

Lemma spec_risk_range n sev :
  leb lit_0_0 (spec_risk n sev) = true /\ leb (spec_risk n sev) lit_1_0 = true.
Proof.
  split.
  - apply nonneg_leb_zero, spec_risk_nonneg.
  - apply (py_min_le_one
             (add (mul lit_0_15 (of_int (Z.of_nat n))) (weight sev))).
Qed.

(** Two symptoms of moderate severity: the sum [0.3 + 0.6] rounds to the
    binary64 number just below nine tenths. *)
Example risk_two_moderate :
  risk_of ["cough"; "fever"] (Some moderate)
  = Some (S754_finite false 8106479329266892 (-53)).
Proof. vm_compute. reflexivity. Qed.

End RiskFacts.

(* ------------------------------------------------------------------ *)
(** ** Dictionaries *)

(** [NoDup] of a list of distinct string literals. *)
Ltac nodup_literals :=
  repeat (constructor; [ simpl; intuition discriminate | ]); constructor.

Lemma dict_get_set_same d k v : dict_get (dict_set d k v) k = Some v.
Proof.
  induction d as [|[k' v'] d IH]; simpl.
  - now rewrite String.eqb_refl.
  - destruct (String.eqb k' k) eqn:E; simpl; rewrite E; auto.
Qed.

Lemma dict_get_set_other d k v k' :
  k' <> k -> dict_get (dict_set d k v) k' = dict_get d k'.
Proof.
  intros Hne. induction d as [|[k0 v0] d IH]; simpl.
  - destruct (String.eqb_spec k k'); [ congruence | reflexivity ].
  - destruct (String.eqb_spec k0 k) as [->|Hk]; simpl.
    + destruct (String.eqb_spec k k'); [ congruence | reflexivity ].
    + destruct (String.eqb k0 k'); auto.
Qed.

Lemma dict_get_None_iff d k : dict_get d k = None <-> ~ In k (keys d).
Proof.
  induction d as [|[k' v'] d IH]; simpl.
  - tauto.
  - destruct (String.eqb_spec k' k) as [->|Hk].
    + split; [ discriminate | tauto ].
    + rewrite IH. tauto.
Qed.

Lemma keys_dict_set d k v :
  keys (dict_set d k v) = if in_dec string_dec k (keys d) then keys d
                          else (keys d ++ [k])%list.
Proof.
  induction d as [|[k' v'] d IH]; simpl.
  - reflexivity.
  - destruct (String.eqb_spec k' k) as [->|Hk]; simpl.
    + destruct (string_dec k k); [ reflexivity | congruence ].
    + rewrite IH. destruct (string_dec k' k); [ congruence | ].
      destruct (in_dec string_dec k (keys d)); reflexivity.
Qed.

Lemma NoDup_keys_dict_set d k v : NoDup (keys d) -> NoDup (keys (dict_set d k v)).
Proof.
  intros H. rewrite keys_dict_set.
  destruct (in_dec string_dec k (keys d)) as [Hin|Hnin]; auto.
  apply NoDup_app; auto.
  - repeat constructor. simpl; tauto.
  - intros x Hx [<-|[]]. contradiction.
Qed.

(* ------------------------------------------------------------------ *)
(** ** The handlers *)

Section HandlerFacts.

Context {R : PyRuntime}.

Lemma SymptomCheck_new_computed entry :
  SymptomCheck_new
    (with_client_fields entry (Some assessment_text)
       (Some (Risk.spec_risk (List.length (SymptomCheck.symptoms entry))
                (SymptomCheck.severity entry))))
  = inr (with_client_fields entry (Some assessment_text)
           (Some (Risk.spec_risk (List.length (SymptomCheck.symptoms entry))
                    (SymptomCheck.severity entry)))).
Proof.
  unfold SymptomCheck_new, with_client_fields; cbn [SymptomCheck.risk_score].
  destruct (RiskFacts.spec_risk_range
              (List.length (SymptomCheck.symptoms entry))
              (SymptomCheck.severity entry)) as [H0 H1].
  rewrite H0, H1. reflexivity.
Qed.

(** The schema either accepts a record as it is or rejects its
    [risk_score]. *)
Lemma SymptomCheck_new_cases entry :
  SymptomCheck_new entry = inr entry
  \/ SymptomCheck_new entry = inl (ValidationError "risk_score").
Proof.
  unfold SymptomCheck_new. destruct (SymptomCheck.risk_score entry); auto.
  destruct (_ && _); auto.
Qed.

Lemma submit_symptoms_rejected (db : database) (entry : SymptomCheck.t) :
  SymptomCheck_new entry = inl (ValidationError "risk_score") ->
  submit_symptoms entry db = (inl (RequestValidationError "risk_score"), db).
Proof.
  intros H. unfold submit_symptoms, bind. rewrite H. reflexivity.
Qed.

Lemma submit_symptoms_run (st : store) (entry : SymptomCheck.t) :
  SymptomCheck_new entry = inr entry ->
  submit_symptoms entry (Some st)
  = (inr [ ("id", VStr (py_str (VObjectId (next_id st))));
           ("risk_score",
             VFloat (Risk.spec_risk (List.length (SymptomCheck.symptoms entry))
                       (SymptomCheck.severity entry)));
           ("assessment", VStr assessment_text) ],
     Some (store_insert st "symptomcheck"
             (("_id", VObjectId (next_id st))
                :: present (model_dump
                     (with_client_fields entry (Some assessment_text)
                        (Some (Risk.spec_risk
                                 (List.length (SymptomCheck.symptoms entry))
                                 (SymptomCheck.severity entry)))))))).
Proof.
  intros Hvalid. unfold submit_symptoms, bind at 1. rewrite Hvalid.
  cbv beta iota delta [Body lift ret].
  rewrite RiskFacts.risk_of_spec.
  pose proof (SymptomCheck_new_computed entry) as E.
  unfold with_client_fields in E. unfold bind. rewrite E.
  reflexivity.
Qed.

Lemma computed_doc_fields oid entry r :
  dict_get (("_id", VObjectId oid)
              :: present (model_dump
                   (with_client_fields entry (Some assessment_text) (Some r))))
    "_id" = Some (VObjectId oid)
  /\ dict_get (("_id", VObjectId oid)
                 :: present (model_dump
                      (with_client_fields entry (Some assessment_text)
                         (Some r))))
       "risk_score" = Some (VFloat r)
  /\ dict_get (("_id", VObjectId oid)
                 :: present (model_dump
                      (with_client_fields entry (Some assessment_text)
                         (Some r))))
       "assessment" = Some (VStr assessment_text).
Proof.
  destruct entry as [sy du se no a rs ow]; unfold with_client_fields.
  destruct du, se, no, ow; repeat split; reflexivity.
Qed.

(** C1, amended.  A symptom-check submission that passes the schema (a
    [risk_score] sent by the client, if any, lies between 0 and 1) appends
    one document to the symptom checks and nothing else; the stored and
    the returned risk score are
    [min(1.0, 0.15 * len(symptoms) + weight(severity))], computed in
    binary64 with the weights 0.2, 0.3, 0.6 and 0.85 for no severity,
    mild, moderate and severe; the score lies between 0 and 1; the stored
    assessment is the fixed text; and the outcome is the same whatever
    acceptable [risk_score] and [assessment] the client sent.  A
    [risk_score] outside that range makes the request fail with a
    validation error, the database untouched. *)
Theorem submit_symptoms_risk_score (st : store) (entry : SymptomCheck.t)
        (Hvalid : SymptomCheck_new entry = inr entry) :
  exists (st' : store) (doc : dict),
    submit_symptoms entry (Some st)
    = (inr [ ("id", VStr (py_str (VObjectId (next_id st))));
             ("risk_score",
               VFloat (Risk.spec_risk
                         (List.length (SymptomCheck.symptoms entry))
                         (SymptomCheck.severity entry)));
             ("assessment", VStr assessment_text) ],
       Some st')
    /\ (forall c, collections st' c
                  = if String.eqb c "symptomcheck"
                    then collections st c ++ [doc]
                    else collections st c)
    /\ dict_get doc "_id" = Some (VObjectId (next_id st))
    /\ dict_get doc "risk_score"
       = Some (VFloat (Risk.spec_risk
                         (List.length (SymptomCheck.symptoms entry))
                         (SymptomCheck.severity entry)))
    /\ dict_get doc "assessment" = Some (VStr assessment_text)
    /\ Float64.leb Float64.lit_0_0
         (Risk.spec_risk (List.length (SymptomCheck.symptoms entry))
            (SymptomCheck.severity entry)) = true
    /\ Float64.leb
         (Risk.spec_risk (List.length (SymptomCheck.symptoms entry))
            (SymptomCheck.severity entry)) Float64.lit_1_0 = true
    /\ (forall (a : option string) (rs : option spec_float),
          SymptomCheck_new (with_client_fields entry a rs)
          = inr (with_client_fields entry a rs) ->
          submit_symptoms (with_client_fields entry a rs) (Some st)
          = submit_symptoms entry (Some st))
    /\ (forall (a : option string) (rs : option spec_float) (db : database),
          SymptomCheck_new (with_client_fields entry a rs)
          = inl (ValidationError "risk_score") ->
          submit_symptoms (with_client_fields entry a rs) db
          = (inl (RequestValidationError "risk_score"), db)).
Proof.
  destruct (computed_doc_fields (next_id st) entry
              (Risk.spec_risk (List.length (SymptomCheck.symptoms entry))
                 (SymptomCheck.severity entry))) as (Hi & Hr & Ha).
  eexists _, _. split; [ apply submit_symptoms_run, Hvalid | ].
  split; [ intros c; reflexivity | ].
  split; [ exact Hi | ]. split; [ exact Hr | ]. split; [ exact Ha | ].
  split; [ apply RiskFacts.spec_risk_range | ].
  split; [ apply RiskFacts.spec_risk_range | ].
  split.
  - intros a rs Hok.
    rewrite (submit_symptoms_run st _ Hok), (submit_symptoms_run st _ Hvalid).
    reflexivity.
  - intros a rs db Hbad. now apply submit_symptoms_rejected.
Qed.

Lemma truthy_firstn_filter {A : Type} (p : A -> bool) (l : list A) :
  truthy_list (firstn 1 (filter p l)) = existsb p l.
Proof.
  induction l as [|x l IH]; simpl; auto.
  destruct (p x); simpl; auto.
Qed.

Lemma email_taken_iff (st : store) (email : string) :
  email_taken st email = true
  <-> exists d, In d (collections st "userprofile")
                /\ dict_get d "email" = Some (VStr email).
Proof.
  unfold email_taken. rewrite existsb_exists.
  split; intros (d & Hin & H); exists d; split; auto.
  - unfold matches in H; simpl in H.
    destruct (dict_get d "email") as [v|]; [ | discriminate ].
    unfold value_eqb in H.
    destruct (value_eq_dec v (VStr email)); [ congruence | discriminate ].
  - unfold matches; simpl. rewrite H. unfold value_eqb.
    destruct (value_eq_dec (VStr email) (VStr email)); [ reflexivity | congruence ].
Qed.

Lemma stored_profile_fields oid (p : UserProfile.t) :
  dict_get (("_id", VObjectId oid) :: present (model_dump p)) "_id"
  = Some (VObjectId oid)
  /\ dict_get (("_id", VObjectId oid) :: present (model_dump p)) "name"
     = Some (VStr (UserProfile.name p))
  /\ dict_get (("_id", VObjectId oid) :: present (model_dump p)) "email"
     = Some (VStr (UserProfile.email p))
  /\ dict_get (("_id", VObjectId oid) :: present (model_dump p)) "phone"
     = option_map VStr (UserProfile.phone p)
  /\ dict_get (("_id", VObjectId oid) :: present (model_dump p)) "age"
     = option_map VInt (UserProfile.age p)
  /\ dict_get (("_id", VObjectId oid) :: present (model_dump p)) "gender"
     = option_map (fun g => VStr (Gender_str g)) (UserProfile.gender p)
  /\ dict_get (("_id", VObjectId oid) :: present (model_dump p)) "height_cm"
     = option_map VFloat (UserProfile.height_cm p)
  /\ dict_get (("_id", VObjectId oid) :: present (model_dump p)) "weight_kg"
     = option_map VFloat (UserProfile.weight_kg p)
  /\ dict_get (("_id", VObjectId oid) :: present (model_dump p)) "theme"
     = Some (VStr (Theme_str (UserProfile.theme p)))
  /\ dict_get (("_id", VObjectId oid) :: present (model_dump p))
       "notifications_enabled"
     = Some (VBool (UserProfile.notifications_enabled p)).
Proof.
  destruct p as [n e [ph|] [a|] [g|] [h|] [w|] t ne];
    repeat split; reflexivity.
Qed.

(** C2.  Creating a profile whose email some stored profile already has
    fails with the duplicate-email error (the Conflict condition of the
    specification, raised as HTTP status 400) and leaves the store as it
    was; otherwise exactly one document is appended to the profiles and
    nothing else changes: it carries a fresh identifier, which is
    returned, and the fields of the profile, so that its email is taken
    from then on. *)
Theorem create_profile_unique_email (st : store) (profile : UserProfile.t) :
  (email_taken st (UserProfile.email profile) = true
   <-> exists d, In d (collections st "userprofile")
                 /\ dict_get d "email"
                    = Some (VStr (UserProfile.email profile)))
  /\ if email_taken st (UserProfile.email profile)
     then create_profile profile (Some st)
          = (inl (HTTPException 400 "Profile with this email already exists"),
             Some st)
     else exists (st' : store) (doc : dict),
         create_profile profile (Some st)
         = (inr [("id", VStr (py_str (VObjectId (next_id st))))], Some st')
         /\ (forall c, collections st' c
                       = if String.eqb c "userprofile"
                         then collections st c ++ [doc]
                         else collections st c)
         /\ next_id st' = N.succ (next_id st)
         /\ email_taken st' (UserProfile.email profile) = true
         /\ dict_get doc "_id" = Some (VObjectId (next_id st))
         /\ dict_get doc "name" = Some (VStr (UserProfile.name profile))
         /\ dict_get doc "email" = Some (VStr (UserProfile.email profile))
         /\ dict_get doc "phone" = option_map VStr (UserProfile.phone profile)
         /\ dict_get doc "age" = option_map VInt (UserProfile.age profile)
         /\ dict_get doc "gender"
            = option_map (fun g => VStr (Gender_str g))
                (UserProfile.gender profile)
         /\ dict_get doc "height_cm"
            = option_map VFloat (UserProfile.height_cm profile)
         /\ dict_get doc "weight_kg"
            = option_map VFloat (UserProfile.weight_kg profile)
         /\ dict_get doc "theme"
            = Some (VStr (Theme_str (UserProfile.theme profile)))
         /\ dict_get doc "notifications_enabled"
            = Some (VBool (UserProfile.notifications_enabled profile)).
Proof.
  split; [ apply email_taken_iff | ].
  destruct (email_taken st (UserProfile.email profile)) eqn:Et.
  - unfold create_profile, bind, get_documents; simpl Z.to_nat.
    change (Pos.to_nat 1) with 1%nat.
    rewrite truthy_firstn_filter.
    fold (email_taken st (UserProfile.email profile)). now rewrite Et.
  - destruct (stored_profile_fields (next_id st) profile)
      as (Hi & Hn & He & Hp & Ha & Hg & Hh & Hw & Ht & Hne).
    exists (store_insert st "userprofile"
              (("_id", VObjectId (next_id st))
                 :: present (model_dump profile))),
      (("_id", VObjectId (next_id st)) :: present (model_dump profile)).
    split.
    { unfold create_profile, bind, get_documents; simpl Z.to_nat.
      change (Pos.to_nat 1) with 1%nat.
      rewrite truthy_firstn_filter.
      fold (email_taken st (UserProfile.email profile)). now rewrite Et. }
    split; [ intros c; reflexivity | ].
    split; [ reflexivity | ].
    split.
    { apply email_taken_iff. eexists. split; [ | exact He ].
      cbn [collections store_insert]. rewrite String.eqb_refl.
      apply in_or_app. right. now left. }
    repeat (split; [ assumption | ]). assumption.
Qed.

Lemma chat_run (st : store) (message : ChatMessage.t) :
  chat message (Some st)
  = (inr [ ("user_message_id", VStr (py_str (VObjectId (next_id st))));
           ("assistant_message_id",
             VStr (py_str (VObjectId (N.succ (next_id st)))));
           ("reply", VStr reply_text) ],
     Some (store_insert
             (store_insert st "chatmessage"
                (message_doc (next_id st) message))
             "chatmessage"
             (message_doc (N.succ (next_id st)) (reply_to message)))).
Proof. reflexivity. Qed.

Lemma collections_two_inserts st c d1 d2 c' :
  collections (store_insert (store_insert st c d1) c d2) c'
  = if String.eqb c' c then (collections st c' ++ [d1; d2])%list
    else collections st c'.
Proof.
  simpl. destruct (String.eqb c' c); auto.
  now rewrite <- app_assoc.
Qed.

Lemma message_doc_fields oid m :
  dict_get (message_doc oid m) "_id" = Some (VObjectId oid)
  /\ dict_get (message_doc oid m) "conversation_id"
     = option_map VStr (ChatMessage.conversation_id m)
  /\ dict_get (message_doc oid m) "role"
     = Some (VStr (Role_str (ChatMessage.role m)))
  /\ dict_get (message_doc oid m) "content" = Some (VStr (ChatMessage.content m))
  /\ dict_get (message_doc oid m) "owner_email"
     = option_map VStr (ChatMessage.owner_email m).
Proof.
  destruct m as [[c|] r t [o|]]; repeat split; reflexivity.
Qed.

(** C3.  A chat message of role "user" makes the handler append exactly
    two documents to the chat messages, nothing else changing: the
    submitted message with its own fields, and one reply of role
    "assistant" that has the conversation id and owner email of the
    submitted message and the fixed advisory text as content; the response
    carries the two new identifiers and that text. *)
Theorem chat_user_message (st : store) (message : ChatMessage.t)
        (Hrole : ChatMessage.role message = user) :
  exists (st' : store) (sent reply : dict),
    chat message (Some st)
    = (inr [ ("user_message_id", VStr (py_str (VObjectId (next_id st))));
             ("assistant_message_id",
               VStr (py_str (VObjectId (N.succ (next_id st)))));
             ("reply", VStr reply_text) ],
       Some st')
    /\ (forall c, collections st' c
                  = if String.eqb c "chatmessage"
                    then (collections st c ++ [sent; reply])%list
                    else collections st c)
    /\ sent = ("_id", VObjectId (next_id st)) :: present (model_dump message)
    /\ dict_get sent "role" = Some (VStr "user")
    /\ dict_get sent "content" = Some (VStr (ChatMessage.content message))
    /\ dict_get reply "_id" = Some (VObjectId (N.succ (next_id st)))
    /\ dict_get reply "role" = Some (VStr "assistant")
    /\ dict_get reply "content" = Some (VStr reply_text)
    /\ dict_get reply "conversation_id"
       = option_map VStr (ChatMessage.conversation_id message)
    /\ dict_get reply "conversation_id" = dict_get sent "conversation_id"
    /\ dict_get reply "owner_email"
       = option_map VStr (ChatMessage.owner_email message)
    /\ dict_get reply "owner_email" = dict_get sent "owner_email".
Proof.
  exists (store_insert
            (store_insert st "chatmessage" (message_doc (next_id st) message))
            "chatmessage"
            (message_doc (N.succ (next_id st)) (reply_to message))),
    (message_doc (next_id st) message),
    (message_doc (N.succ (next_id st)) (reply_to message)).
  destruct (message_doc_fields (next_id st) message)
    as (_ & Hc & Hr & Ht & Ho).
  destruct (message_doc_fields (N.succ (next_id st)) (reply_to message))
    as (Hi' & Hc' & Hr' & Ht' & Ho').
  rewrite Hrole in Hr.
  repeat split; auto.
  - intros c. apply collections_two_inserts.
  - rewrite Hc', Hc. reflexivity.
  - rewrite Ho', Ho. reflexivity.
Qed.

(** C9.  The handler does not look at the role of the incoming message: a
    message of role "assistant" is stored as sent, with that role, and is
    answered by one stored assistant reply all the same; response and
    reply are those the same message would get under role "user". *)
Theorem chat_assistant_message (st : store) (message : ChatMessage.t)
        (Hrole : ChatMessage.role message = assistant) :
  exists (st' : store) (sent reply : dict),
    chat message (Some st)
    = (inr [ ("user_message_id", VStr (py_str (VObjectId (next_id st))));
             ("assistant_message_id",
               VStr (py_str (VObjectId (N.succ (next_id st)))));
             ("reply", VStr reply_text) ],
       Some st')
    /\ (forall c, collections st' c
                  = if String.eqb c "chatmessage"
                    then (collections st c ++ [sent; reply])%list
                    else collections st c)
    /\ sent = message_doc (next_id st) message
    /\ dict_get sent "role" = Some (VStr "assistant")
    /\ reply = message_doc (N.succ (next_id st)) (reply_to message)
    /\ dict_get reply "role" = Some (VStr "assistant")
    /\ fst (chat (with_role message user) (Some st))
       = fst (chat message (Some st))
    /\ exists st_user : store,
         snd (chat (with_role message user) (Some st)) = Some st_user
         /\ forall c, collections st_user c
                      = if String.eqb c "chatmessage"
                        then (collections st c
                                ++ [dict_set sent "role" (VStr "user"); reply])%list
                        else collections st c.
Proof.
  exists (store_insert
            (store_insert st "chatmessage" (message_doc (next_id st) message))
            "chatmessage"
            (message_doc (N.succ (next_id st)) (reply_to message))),
    (message_doc (next_id st) message),
    (message_doc (N.succ (next_id st)) (reply_to message)).
  destruct (message_doc_fields (next_id st) message)
    as (_ & _ & Hr & _ & _).
  rewrite Hrole in Hr.
  split; [ apply chat_run | ].
  split; [ intros c; apply collections_two_inserts | ].
  split; [ reflexivity | ].
  split; [ exact Hr | ].
  split; [ reflexivity | ].
  split; [ apply (message_doc_fields _ (reply_to message)) | ].
  split; [ rewrite !chat_run; reflexivity | ].
  rewrite !chat_run.
  eexists; split; [ reflexivity | ].
  intros c. rewrite collections_two_inserts.
  destruct (String.eqb c "chatmessage"); auto.
  destruct message as [[cv|] r t [o|]]; reflexivity.
Qed.

(** The chat handler keeps the stored messages sortable: what it appends
    has no [created_at] of another type. *)
Lemma chat_keeps_created_at_typed (st : store) (message : ChatMessage.t) :
  Forall created_at_typed (collections st "chatmessage") ->
  exists st', snd (chat message (Some st)) = Some st'
              /\ Forall created_at_typed (collections st' "chatmessage").
Proof.
  intros Htyped. rewrite chat_run. eexists. split; [ reflexivity | ].
  rewrite collections_two_inserts. simpl String.eqb. cbv iota.
  apply Forall_app. split; [ exact Htyped | ].
  destruct message as [[c|] r t [o|]]; repeat constructor.
Qed.

(* ------------------------------------------------------------------ *)
(** ** [_serialize] *)

Lemma dict_get_app d1 d2 k :
  dict_get (d1 ++ d2) k
  = match dict_get d1 k with Some v => Some v | None => dict_get d2 k end.
Proof.
  induction d1 as [|[k' v'] d1 IH]; simpl; auto.
  destruct (String.eqb k' k); auto.
Qed.

Lemma dict_get_In d k v : NoDup (keys d) -> (dict_get d k = Some v <-> In (k, v) d).
Proof.
  induction d as [|[k' v'] d IH]; simpl; intros Hnd.
  - split; [ discriminate | tauto ].
  - inversion Hnd as [|? ? Hnin Hnd']; subst.
    destruct (String.eqb_spec k' k) as [->|Hk].
    + split.
      * intros [= ->]. now left.
      * intros [[= ->]|Hin]; auto.
        exfalso. apply Hnin. change k with (fst (k, v)). now apply in_map.
    + rewrite (IH Hnd'). split; auto.
      intros [[= -> _]|Hin]; [ congruence | auto ].
Qed.

Lemma dict_get_rev d k : NoDup (keys d) -> dict_get (rev d) k = dict_get d k.
Proof.
  intros Hnd.
  assert (Hnd' : NoDup (keys (rev d))).
  { unfold keys. rewrite map_rev. now apply NoDup_rev. }
  destruct (dict_get d k) as [v|] eqn:E.
  - apply dict_get_In; auto. rewrite <- in_rev. now apply dict_get_In.
  - apply dict_get_None_iff. apply dict_get_None_iff in E.
    unfold keys in *. rewrite map_rev, <- in_rev. exact E.
Qed.

(** After [d.update(data)] a key holds what its last item in [data]
    assigned, or what it held before. *)
Lemma dict_get_update_last data : forall d k,
  dict_get (dict_update d data) k
  = match dict_get (rev data) k with
    | Some v => Some v
    | None => dict_get d k
    end.
Proof.
  unfold dict_update.
  induction data as [|[k1 v1] data IH]; intros d k; simpl; auto.
  rewrite IH, dict_get_app. simpl.
  destruct (dict_get (rev data) k); auto.
  destruct (String.eqb_spec k1 k) as [->|Hk].
  - apply dict_get_set_same.
  - apply dict_get_set_other. congruence.
Qed.

Lemma dict_get_update data d k :
  NoDup (keys data) ->
  dict_get (dict_update d data) k
  = match dict_get data k with Some v => Some v | None => dict_get d k end.
Proof.
  intros Hnd. now rewrite dict_get_update_last, dict_get_rev.
Qed.

Lemma dict_set_fresh d k v : ~ In k (keys d) -> dict_set d k v = (d ++ [(k, v)])%list.
Proof.
  induction d as [|[k' v'] d IH]; simpl; intros Hnin; auto.
  destruct (String.eqb_spec k' k) as [->|Hk]; [ tauto | ].
  rewrite IH; tauto.
Qed.

Lemma dict_update_fresh data : forall d,
  NoDup (keys d ++ keys data) -> dict_update d data = (d ++ data)%list.
Proof.
  unfold dict_update.
  induction data as [|[k v] data IH]; intros d Hnd; simpl.
  - now rewrite app_nil_r.
  - rewrite dict_set_fresh.
    + rewrite IH.
      * now rewrite <- app_assoc.
      * unfold keys in *. rewrite map_app, <- app_assoc. exact Hnd.
    + apply NoDup_remove_2 in Hnd. intros Hin. apply Hnd.
      apply in_or_app. now left.
Qed.

Lemma NoDup_keys_dict_update data : forall d,
  NoDup (keys d) -> NoDup (keys (dict_update d data)).
Proof.
  unfold dict_update.
  induction data as [|[k v] data IH]; intros d Hnd; simpl; auto.
  apply IH, NoDup_keys_dict_set, Hnd.
Qed.

Lemma Forall_dict_set (P : string * value -> Prop) d k v :
  Forall P d -> P (k, v) -> Forall P (dict_set d k v).
Proof.
  intros Hd Hkv. induction Hd as [|[k' v'] d Hx Hd IH]; simpl.
  - repeat constructor; auto.
  - destruct (String.eqb_spec k' k) as [->|Hk]; constructor; auto.
Qed.

Lemma Forall_dict_update (P : string * value -> Prop) data : forall d,
  Forall P d -> Forall P data -> Forall P (dict_update d data).
Proof.
  unfold dict_update.
  induction data as [|[k v] data IH]; intros d Hd Hdata; simpl; auto.
  inversion Hdata; subst. apply IH; auto.
  apply Forall_dict_set; auto.
Qed.

Lemma serialize_item_public res kv :
  serialize_item res kv
  = dict_set res (fst (public_item kv)) (snd (public_item kv)).
Proof.
  destruct kv as [k v]; unfold serialize_item, public_item; simpl.
  destruct (String.eqb k "_id"); simpl; auto.
  destruct v; reflexivity.
Qed.

Lemma serialize_doc_update d : serialize_doc d = dict_update [] (map public_item d).
Proof.
  unfold serialize_doc, dict_update. generalize (@nil (string * value)).
  induction d as [|kv d IH]; intros acc; simpl; auto.
  now rewrite IH, serialize_item_public.
Qed.

Lemma public_item_public kv : public_field (public_item kv).
Proof.
  destruct kv as [k v]; unfold public_item, public_field; simpl.
  destruct (String.eqb_spec k "_id") as [->|Hk]; simpl.
  - split; [ discriminate | reflexivity ].
  - split; auto. destruct v; reflexivity.
Qed.

Lemma public_item_fixed kv : public_field kv -> public_item kv = kv.
Proof.
  destruct kv as [k v]; unfold public_item, public_field; simpl.
  intros [Hk Hv]. destruct (String.eqb_spec k "_id"); [ contradiction | ].
  destruct v; try reflexivity; discriminate.
Qed.

Lemma serialize_doc_shape d :
  NoDup (keys (serialize_doc d)) /\ Forall public_field (serialize_doc d).
Proof.
  rewrite serialize_doc_update. split.
  - apply NoDup_keys_dict_update. constructor.
  - apply Forall_dict_update; [ constructor | ].
    apply Forall_forall. intros kv [kv' [<- _]]%in_map_iff.
    apply public_item_public.
Qed.

Lemma serialize_doc_fixed d :
  NoDup (keys d) -> Forall public_field d -> serialize_doc d = d.
Proof.
  intros Hnd Hp. rewrite serialize_doc_update.
  replace (map public_item d) with d.
  - now rewrite dict_update_fresh.
  - symmetry. rewrite <- (map_id d) at 2. apply map_ext_in.
    intros kv Hin. apply public_item_fixed.
    rewrite Forall_forall in Hp. now apply Hp.
Qed.

Lemma serialize_doc_idempotent d :
  serialize_doc (serialize_doc d) = serialize_doc d.
Proof.
  destruct (serialize_doc_shape d) as [Hnd Hp].
  now apply serialize_doc_fixed.
Qed.

Lemma keys_public d :
  keys (map public_item d)
  = map (fun k => if String.eqb k "_id" then "id" else k) (keys d).
Proof.
  unfold keys. rewrite !map_map. apply map_ext.
  intros [k v]; unfold public_item; simpl.
  destruct (String.eqb k "_id"); reflexivity.
Qed.

Lemma NoDup_keys_public d :
  NoDup (keys d) ->
  dict_get d "_id" = None \/ dict_get d "id" = None ->
  NoDup (keys (map public_item d)).
Proof.
  intros Hnd Hone. rewrite keys_public.
  apply NoDup_map_NoDup_ForallPairs; auto.
  intros a b Ha Hb.
  rewrite !dict_get_None_iff in Hone.
  destruct (String.eqb_spec a "_id") as [->|Ha'],
           (String.eqb_spec b "_id") as [->|Hb']; intros E; subst; auto;
    destruct Hone; contradiction.
Qed.

Lemma serialize_doc_get d k :
  NoDup (keys d) ->
  dict_get d "_id" = None \/ dict_get d "id" = None ->
  dict_get (serialize_doc d) k
  = if String.eqb k "_id" then None
    else if String.eqb k "id" then
           match dict_get d "_id" with
           | Some v => Some (VStr (py_str v))
           | None => option_map public_value (dict_get d "id")
           end
         else option_map public_value (dict_get d k).
Proof.
  intros Hnd Hone.
  pose proof (NoDup_keys_public d Hnd Hone) as Hnd'.
  rewrite serialize_doc_update, dict_get_update by exact Hnd'.
  simpl.
  assert (Hsome_id : forall v0, dict_get d "_id" = Some v0 ->
            dict_get (map public_item d) "id" = Some (VStr (py_str v0))).
  { intros v0 H0. apply dict_get_In; auto.
    apply in_map_iff. exists ("_id", v0). split; [ reflexivity | ].
    now apply dict_get_In. }
  assert (Hsome : forall k0 v0, k0 <> "_id" -> dict_get d k0 = Some v0 ->
            dict_get (map public_item d) k0 = Some (public_value v0)).
  { intros k0 v0 Hk0 H0. apply dict_get_In; auto.
    apply in_map_iff. exists (k0, v0). split; [ | now apply dict_get_In ].
    unfold public_item; simpl.
    destruct (String.eqb_spec k0 "_id"); [ contradiction | reflexivity ]. }
  assert (Hnone : forall k0, dict_get (map public_item d) k0 = None <->
            ~ exists k1, In k1 (keys d)
                         /\ (if String.eqb k1 "_id" then "id" else k1) = k0).
  { intros k0. rewrite dict_get_None_iff, keys_public, in_map_iff.
    split; intros H [k1 [H1 H2]]; apply H; exists k1; tauto. }
  destruct (String.eqb_spec k "_id") as [->|Hk].
  - replace (dict_get (map public_item d) "_id") with (@None value); auto.
    symmetry. apply Hnone. intros [k1 [_ H1]].
    destruct (String.eqb k1 "_id") eqn:E; [ discriminate | ].
    subst k1. discriminate.
  - destruct (String.eqb_spec k "id") as [->|Hk'].
    + destruct (dict_get d "_id") as [v|] eqn:E1.
      * rewrite (Hsome_id _ eq_refl). reflexivity.
      * destruct (dict_get d "id") as [v|] eqn:E2; simpl.
        -- rewrite (Hsome _ _ Hk E2). reflexivity.
        -- replace (dict_get (map public_item d) "id") with (@None value);
             auto.
           symmetry. apply Hnone. intros [k1 [Hin H1]].
           apply dict_get_None_iff in E1. apply dict_get_None_iff in E2.
           destruct (String.eqb_spec k1 "_id"); subst; contradiction.
    + destruct (dict_get d k) as [v|] eqn:E; simpl.
      * rewrite (Hsome _ _ Hk E). reflexivity.
      * replace (dict_get (map public_item d) k) with (@None value); auto.
        symmetry. apply Hnone. intros [k1 [Hin H1]].
        apply dict_get_None_iff in E.
        destruct (String.eqb_spec k1 "_id"); subst; [ congruence | contradiction ].
Qed.

(** C4, amended.  [_serialize] returns [None] on [None]; applying it
    twice to any document gives what applying it once gives; and on a
    document that does not hold both an [_id] and an [id] field, the
    result has no [_id], its [id] is the string of [_id] (or, without an
    [_id], the document's own [id]), every datetime-valued field is its
    ISO-8601 text and every other field is unchanged. *)
Theorem serialize_total_idempotent_fieldwise (d : dict)
        (Hdict : NoDup (keys d))
        (Hone : dict_get d "_id" = None \/ dict_get d "id" = None) :
  _serialize None = None
  /\ (forall d' : dict,
        _serialize (_serialize (Some d')) = _serialize (Some d'))
  /\ (exists r : dict, _serialize (Some d) = Some r
        /\ dict_get r "_id" = None
        /\ (forall v, dict_get d "_id" = Some v ->
                      dict_get r "id" = Some (VStr (py_str v)))
        /\ (forall k t, k <> "_id" -> dict_get d k = Some (VDatetime t) ->
                        dict_get r k = Some (VStr (isoformat t)))
        /\ (forall k v, k <> "_id" -> is_datetime v = false ->
                        dict_get d k = Some v -> dict_get r k = Some v)
        /\ (forall k, k <> "id" -> dict_get d k = None ->
                      dict_get r k = None)).
Proof.
  split; [ reflexivity | ].
  split; [ intros d'; simpl; now rewrite serialize_doc_idempotent | ].
  exists (serialize_doc d). split; [ reflexivity | ].
  assert (Hget := fun k => serialize_doc_get d k Hdict Hone).
  split; [ rewrite Hget; reflexivity | ].
  split; [ | split; [ | split ] ].
  - intros v Hv. rewrite Hget; simpl. now rewrite Hv.
  - intros k t Hk Hkt. rewrite Hget.
    destruct (String.eqb_spec k "_id"); [ contradiction | ].
    destruct (String.eqb_spec k "id") as [->|_].
    + destruct Hone as [H|H]; [ | congruence ].
      rewrite H, Hkt. reflexivity.
    + rewrite Hkt. reflexivity.
  - intros k v Hk Hv Hkv. rewrite Hget.
    destruct (String.eqb_spec k "_id"); [ contradiction | ].
    destruct (String.eqb_spec k "id") as [->|_].
    + destruct Hone as [H|H]; [ | congruence ].
      rewrite H, Hkv. destruct v; try reflexivity; discriminate.
    + rewrite Hkv. destruct v; try reflexivity; discriminate.
  - intros k Hk Hkn. rewrite Hget.
    destruct (String.eqb_spec k "_id"); [ reflexivity | ].
    destruct (String.eqb_spec k "id"); [ contradiction | ].
    now rewrite Hkn.
Qed.

(* ------------------------------------------------------------------ *)
(** ** Sorting by datetime keys *)

Lemma insert_keyed_sorted {A : Type} (x : value * A) (l : list (value * A)) :
  (exists s, fst x = VDatetime s) ->
  Forall (fun y => exists t, fst y = VDatetime t) l ->
  StronglySorted key_le l ->
  exists l', insert_keyed x l = Some l'
             /\ Permutation (x :: l) l'
             /\ StronglySorted key_le l'.
Proof.
  intros [s Hs] Hall Hsorted.
  induction l as [|y l IH]; simpl.
  - exists [x]. repeat split; auto. repeat constructor.
  - inversion Hall as [|? ? [t Ht] Hall']; subst.
    inversion Hsorted as [|? ? Hsl Hyl]; subst.
    rewrite Hs, Ht; simpl.
    destruct (Z.ltb_spec s t) as [Hlt|Hge].
    + exists (x :: y :: l). repeat split; auto.
      constructor; auto. constructor.
      * exists s, t. repeat split; auto. lia.
      * rewrite Forall_forall in Hyl |- *. intros z Hz.
        destruct (Hyl z Hz) as (t' & u & Ht' & Hu & Hle).
        exists s, u. repeat split; auto.
        rewrite Ht in Ht'. injection Ht' as <-. lia.
    + destruct (IH Hall' Hsl) as (l' & -> & Hperm & Hsl').
      exists (y :: l'). split; [ reflexivity | ]. split.
      * rewrite perm_swap. now constructor.
      * constructor; auto.
        rewrite Forall_forall. intros z Hz.
        apply (Permutation_in _ (Permutation_sym Hperm)) in Hz.
        destruct Hz as [<-|Hz].
        -- exists t, s. repeat split; auto.
        -- rewrite Forall_forall in Hyl. now apply Hyl.
Qed.

Lemma sort_keyed_sorted {A : Type} (todo : list (value * A)) :
  forall acc,
    Forall (fun y => exists t, fst y = VDatetime t) todo ->
    Forall (fun y => exists t, fst y = VDatetime t) acc ->
    StronglySorted key_le acc ->
    exists l', sort_keyed todo acc = Some l'
               /\ Permutation (todo ++ acc) l'
               /\ StronglySorted key_le l'.
Proof.
  induction todo as [|x todo IH]; intros acc Htodo Hacc Hsorted; simpl.
  - exists acc. auto.
  - inversion Htodo as [|? ? Hx Htodo']; subst.
    destruct (insert_keyed_sorted x acc Hx Hacc Hsorted)
      as (acc' & -> & Hperm & Hsorted').
    destruct (IH acc' Htodo') as (l' & Hrun & Hperm' & Hsl'); auto.
    + rewrite Forall_forall. intros z Hz.
      apply (Permutation_in _ (Permutation_sym Hperm)) in Hz.
      destruct Hz as [<-|Hz]; auto.
      rewrite Forall_forall in Hacc. now apply Hacc.
    + exists l'. repeat split; auto.
      rewrite <- Hperm'. rewrite <- Hperm.
      apply Permutation_middle.
Qed.

Lemma keyed_snd key docs : map snd (keyed key docs) = docs.
Proof.
  unfold keyed. rewrite map_map. simpl.
  change (fun x : nat * dict => snd x) with (@snd nat dict).
  generalize 0%nat.
  induction docs as [|d docs IH]; intros n; simpl; auto.
  now rewrite IH.
Qed.

Lemma keyed_created utcnow docs :
  Forall created_at_typed docs ->
  Forall key_of_created (keyed (created_at_key utcnow) docs).
Proof.
  intros Hty. unfold keyed. rewrite Forall_forall. intros kd Hin.
  apply in_map_iff in Hin. destruct Hin as ([i d] & <- & Hin).
  apply in_combine_r in Hin. rewrite Forall_forall in Hty.
  specialize (Hty d Hin). unfold created_at_typed in Hty.
  unfold key_of_created, created_at_key; simpl.
  destruct (dict_get d "created_at") as [v|].
  - destruct v; try discriminate. exists t. split; auto.
    now intros v [= <-].
  - exists (utcnow i). split; auto. discriminate.
Qed.

Lemma sorted_created (l : list (value * dict)) :
  Forall key_of_created l -> StronglySorted key_le l ->
  StronglySorted created_le (map snd l).
Proof.
  intros Hkeys Hsorted.
  induction Hsorted as [|a l Hsl IH Hal]; simpl; constructor.
  - apply IH. now inversion Hkeys.
  - inversion Hkeys as [|? ? Ha Hl]; subst.
    rewrite Forall_forall in *. intros b Hb.
    apply in_map_iff in Hb. destruct Hb as (kb & <- & Hkb).
    destruct (Hal kb Hkb) as (s & t & Hs & Ht & Hle).
    destruct Ha as (s' & Hs' & Hcs), (Hl kb Hkb) as (t' & Ht' & Hct).
    intros u w Hu Hw.
    apply Hcs in Hu. apply Hct in Hw. congruence.
Qed.

Lemma list_sort_created utcnow docs :
  Forall created_at_typed docs ->
  exists sorted,
    list_sort (created_at_key utcnow) docs = inr sorted
    /\ Permutation docs sorted
    /\ StronglySorted created_le sorted.
Proof.
  intros Hty. unfold list_sort.
  pose proof (keyed_created utcnow docs Hty) as Hkeys.
  assert (Hdt : Forall (fun y : value * dict => exists t, fst y = VDatetime t)
                  (keyed (created_at_key utcnow) docs)).
  { eapply Forall_impl; [ | exact Hkeys ].
    intros kd (t & Ht & _). now exists t. }
  destruct (sort_keyed_sorted (keyed (created_at_key utcnow) docs) []
              Hdt (Forall_nil _) (SSorted_nil _))
    as (l' & -> & Hperm & Hsl).
  rewrite app_nil_r in Hperm.
  exists (map snd l'). split; [ reflexivity | ]. split.
  - rewrite <- (keyed_snd (created_at_key utcnow) docs).
    now apply Permutation_map.
  - apply sorted_created; auto.
    rewrite Forall_forall in *. intros kd Hin. apply Hkeys.
    now apply (Permutation_in _ (Permutation_sym Hperm)).
Qed.

(* ------------------------------------------------------------------ *)
(** ** The list endpoints *)

Lemma In_firstn {A : Type} (n : nat) (l : list A) (x : A) :
  In x (firstn n l) -> In x l.
Proof.
  intros H. rewrite <- (firstn_skipn n l). apply in_or_app. now left.
Qed.

Lemma Forall_queried (P : dict -> Prop) n p (l : list dict) :
  Forall P l -> Forall P (firstn n (filter p l)).
Proof.
  rewrite !Forall_forall. intros H x Hx.
  apply H. apply In_firstn in Hx. now apply (incl_filter p l).
Qed.

Lemma length_queried {A : Type} (v : Z) (l : list A) :
  0 <= v -> Z.of_nat (List.length (firstn (Z.to_nat v) l)) <= v.
Proof.
  intros Hv. pose proof (firstn_le_length (Z.to_nat v) l). lia.
Qed.

Lemma Query_served default lo hi sent :
  match sent with
  | None => Query default lo hi sent = inr default
  | Some v =>
      if (v <? lo) || (hi <? v)
      then Query default lo hi sent = inl (RequestValidationError "limit")
      else Query default lo hi sent = inr v /\ lo <= v
  end.
Proof.
  unfold Query. destruct sent as [v|]; auto.
  destruct (Z.ltb_spec v lo), (Z.ltb_spec hi v), (Z.leb_spec lo v),
    (Z.leb_spec v hi); simpl; auto; lia.
Qed.

(** The shape the three plain list handlers share. *)
Lemma plain_list_served default lo hi collection_name filt sent st :
  0 <= lo -> 0 <= default ->
  limit_served default lo hi sent st
    ((limit <- lift (Query default lo hi sent) ;;
      docs <- get_documents collection_name filt limit ;;
      ret (map serialize_doc docs)) (Some st)).
Proof.
  intros Hlo Hdef. unfold limit_served, bind.
  pose proof (Query_served default lo hi sent) as HQ.
  destruct sent as [v|].
  - destruct ((v <? lo) || (hi <? v)).
    + rewrite HQ. reflexivity.
    + destruct HQ as [-> Hv]. simpl. eexists. split; [ reflexivity | ].
      rewrite length_map. apply length_queried. lia.
  - rewrite HQ. simpl. eexists. split; [ reflexivity | ].
    rewrite length_map. now apply length_queried.
Qed.

Lemma chat_history_run st conversation_id owner_email sent n utcnow :
  Forall created_at_typed (collections st "chatmessage") ->
  Query 50 1 200 sent = inr n ->
  exists docs,
    chat_history conversation_id owner_email sent utcnow (Some st)
    = (inr (map serialize_doc docs), Some st)
    /\ Permutation
         (firstn (Z.to_nat n)
            (filter (matches (chat_filter conversation_id owner_email))
               (collections st "chatmessage")))
         docs
    /\ StronglySorted created_le docs.
Proof.
  intros Hty HQ.
  destruct (list_sort_created utcnow
              (firstn (Z.to_nat n)
                 (filter (matches (chat_filter conversation_id owner_email))
                    (collections st "chatmessage"))))
    as (sorted & Hsort & Hperm & Hsl).
  { now apply Forall_queried. }
  exists sorted. split; [ | split; assumption ].
  unfold chat_history, bind. rewrite HQ.
  cbv beta iota delta [lift ret get_documents].
  fold (chat_filter conversation_id owner_email).
  rewrite Hsort. reflexivity.
Qed.

Lemma created_timestamps_sorted docs :
  StronglySorted created_le docs ->
  forall ts, map (fun d => dict_get d "created_at") docs
             = map (fun t => Some (VDatetime t)) ts ->
             StronglySorted Z.le ts.
Proof.
  induction 1 as [|d docs Hsl IH Hd]; intros [|t ts] Hts; simpl in Hts;
    try discriminate; constructor.
  - apply IH. now injection Hts.
  - injection Hts as Ht Hts.
    rewrite Forall_forall in *. intros u Hu.
    destruct (In_nth_error _ _ Hu) as [i Hi].
    assert (Hdi : nth_error (map (fun d => dict_get d "created_at") docs) i
                  = Some (Some (VDatetime u))).
    { rewrite Hts.
      apply (map_nth_error (fun t => Some (VDatetime t)) i ts Hi). }
    rewrite nth_error_map in Hdi.
    destruct (nth_error docs i) as [d'|] eqn:Ed; [ | discriminate ].
    injection Hdi as Hdi.
    apply (Hd d' (nth_error_In _ _ Ed) t u); assumption.
Qed.

(** C8.  When the stored chat messages carry datetimes in [created_at]
    (or no such field) and the limit is accepted, a chat-history query
    returns the serialized form of the selected messages put in
    non-decreasing order of [created_at]. *)
Theorem chat_history_sorted_by_created_at
        (st : store) (conversation_id owner_email : option string)
        (limit : option Z) (n : Z) (utcnow : nat -> datetime)
        (Htyped : Forall created_at_typed (collections st "chatmessage"))
        (Hlimit : Query 50 1 200 limit = inr n) :
  exists docs : list dict,
    chat_history conversation_id owner_email limit utcnow (Some st)
    = (inr (map serialize_doc docs), Some st)
    /\ Permutation
         (firstn (Z.to_nat n)
            (filter (matches (chat_filter conversation_id owner_email))
               (collections st "chatmessage")))
         docs
    /\ StronglySorted created_le docs
    /\ forall ts : list datetime,
         map (fun d => dict_get d "created_at") docs
         = map (fun t => Some (VDatetime t)) ts ->
         StronglySorted Z.le ts.
Proof.
  destruct (chat_history_run st conversation_id owner_email limit n utcnow
              Htyped Hlimit) as (docs & Hrun & Hperm & Hsl).
  exists docs. repeat split; auto.
  now apply created_timestamps_sorted.
Qed.

(** C5.  Every list endpoint rejects a [limit] outside its range with a
    validation error and otherwise answers with at most [limit] documents,
    its default when no limit is sent: reports and symptom checks 1 to 100
    with default 25, chat history 1 to 200 with default 50, reminders 1 to
    100 with default 50. *)
Theorem list_endpoints_limit
        (st : store) (conversation_id owner_email : option string)
        (limit : option Z) (utcnow : nat -> datetime)
        (Htyped : Forall created_at_typed (collections st "chatmessage")) :
  limit_served 25 1 100 limit st
    (list_reports owner_email limit (Some st))
  /\ limit_served 25 1 100 limit st
       (list_symptom_checks owner_email limit (Some st))
  /\ limit_served 50 1 200 limit st
       (chat_history conversation_id owner_email limit utcnow (Some st))
  /\ limit_served 50 1 100 limit st
       (list_reminders owner_email limit (Some st)).
Proof.
  split; [ apply plain_list_served; lia | ].
  split; [ apply plain_list_served; lia | ].
  split; [ | apply plain_list_served; lia ].
  unfold limit_served.
  pose proof (Query_served 50 1 200 limit) as HQ.
  destruct limit as [v|].
  - destruct ((v <? 1) || (200 <? v)).
    + unfold chat_history, bind. rewrite HQ. reflexivity.
    + destruct HQ as [HQ Hv].
      destruct (chat_history_run st conversation_id owner_email (Some v) v
                  utcnow Htyped HQ) as (docs & -> & Hperm & _).
      eexists. split; [ reflexivity | ].
      rewrite length_map, <- (Permutation_length Hperm).
      apply length_queried. lia.
  - destruct (chat_history_run st conversation_id owner_email None 50
                utcnow Htyped HQ) as (docs & -> & Hperm & _).
    eexists. split; [ reflexivity | ].
    rewrite length_map, <- (Permutation_length Hperm).
    now apply length_queried.
Qed.

(* ------------------------------------------------------------------ *)
(** ** Profile update *)

Lemma find_existsb {A : Type} (p : A -> bool) (l : list A) :
  find p l = None <-> existsb p l = false.
Proof.
  induction l as [|x l IH]; simpl; [ tauto | ].
  destruct (p x); simpl; [ split; discriminate | exact IH ].
Qed.

Lemma matches_truthy filt d k v :
  matches ((k, v) :: filt) d = true -> truthy_dict d = true.
Proof. destruct d; [ discriminate | reflexivity ]. Qed.

Lemma update_one_found filt data : forall docs found,
  find (matches filt) docs = Some found ->
  exists pre post,
    docs = pre ++ found :: post
    /\ Forall (fun d => matches filt d = false) pre
    /\ update_one docs filt data
       = pre ++ dict_update found (bson_doc data) :: post.
Proof.
  induction docs as [|d docs IH]; simpl; intros found Hfind.
  - discriminate.
  - destruct (matches filt d) eqn:E.
    + injection Hfind as <-. exists [], docs. repeat split; auto.
    + destruct (IH found Hfind) as (pre & post & -> & Hpre & ->).
      exists (d :: pre), post. repeat split; auto.
Qed.

Lemma present_dump_get changes k :
  dict_get (filter (fun kv => negb (is_None (snd kv))) (model_dump changes)) k
  = provided changes k.
Proof.
  destruct changes as [[?|] [?|] [?|] [?|] [?|] [?|] [?|] [?|]];
    cbv - [String.eqb];
    repeat match goal with
           | |- context [String.eqb ?a k] =>
               destruct (String.eqb_spec a k) as [<-|?]
           end; reflexivity.
Qed.

Lemma keys_filter_incl (p : string * value -> bool) (d : dict) k :
  In k (keys (filter p d)) -> In k (keys d).
Proof.
  unfold keys. rewrite !in_map_iff. intros (kv & <- & Hin).
  exists kv. split; auto. now apply (incl_filter p d).
Qed.

Lemma NoDup_keys_filter (p : string * value -> bool) (d : dict) :
  NoDup (keys d) -> NoDup (keys (filter p d)).
Proof.
  induction d as [|[k v] d IH]; simpl; intros Hnd; auto.
  inversion Hnd as [|? ? Hnin Hnd']; subst.
  destruct (p (k, v)); simpl; auto.
  constructor; auto. intros Hin. apply Hnin. now apply keys_filter_incl in Hin.
Qed.

Lemma keys_dump_ProfileUpdate (changes : ProfileUpdate.t) :
  keys (model_dump changes)
  = [ "name"; "phone"; "age"; "gender"; "height_cm"; "weight_kg"; "theme";
      "notifications_enabled" ].
Proof. reflexivity. Qed.

Lemma NoDup_keys_dump_ProfileUpdate (changes : ProfileUpdate.t) :
  NoDup (keys (model_dump changes)).
Proof.
  rewrite keys_dump_ProfileUpdate. nodup_literals.
Qed.

Lemma set_data_get changes now k :
  dict_get
    (dict_set (filter (fun kv => negb (is_None (snd kv))) (model_dump changes))
       "updated_at" (VDatetime now)) k
  = if String.eqb k "updated_at" then Some (VDatetime now)
    else provided changes k.
Proof.
  destruct (String.eqb_spec k "updated_at") as [->|Hk].
  - apply dict_get_set_same.
  - rewrite dict_get_set_other by exact Hk. apply present_dump_get.
Qed.

Lemma NoDup_set_data changes now :
  NoDup (keys
    (dict_set (filter (fun kv => negb (is_None (snd kv))) (model_dump changes))
       "updated_at" (VDatetime now))).
Proof.
  apply NoDup_keys_dict_set, NoDup_keys_filter, NoDup_keys_dump_ProfileUpdate.
Qed.

Lemma keys_bson_doc d : keys (bson_doc d) = keys d.
Proof. unfold keys, bson_doc. rewrite map_map. reflexivity. Qed.

Lemma dict_get_bson_doc d k :
  dict_get (bson_doc d) k = option_map bson_value (dict_get d k).
Proof.
  induction d as [|[k' v'] d IH]; simpl; auto.
  destruct (String.eqb k' k); auto.
Qed.

Lemma provided_bson changes k :
  option_map bson_value (provided changes k) = provided changes k.
Proof.
  unfold provided.
  repeat match goal with
         | |- context [String.eqb ?a k] => destruct (String.eqb a k)
         end;
    try reflexivity;
    match goal with
    | |- option_map _ (option_map _ ?o) = _ => destruct o; reflexivity
    end.
Qed.

(** What an update writes into the found profile, key by key. *)
Lemma stored_data_get changes now k :
  dict_get
    (bson_doc
       (dict_set (filter (fun kv => negb (is_None (snd kv)))
                    (model_dump changes))
          "updated_at" (VDatetime now))) k
  = if String.eqb k "updated_at" then Some (VDatetime (bson_datetime now))
    else provided changes k.
Proof.
  rewrite dict_get_bson_doc, set_data_get.
  destruct (String.eqb k "updated_at"); [ reflexivity | ].
  apply provided_bson.
Qed.

Lemma NoDup_stored_data changes now :
  NoDup (keys
    (bson_doc
       (dict_set (filter (fun kv => negb (is_None (snd kv)))
                    (model_dump changes))
          "updated_at" (VDatetime now)))).
Proof. rewrite keys_bson_doc. apply NoDup_set_data. Qed.

Lemma update_profile_found st email changes now found :
  find_one (collections st "userprofile") [("email", VStr email)] = Some found ->
  update_profile email changes now (Some st)
  = (inr [("ok", VBool true)],
     Some (set_collection st "userprofile"
             (update_one (collections st "userprofile")
                [("email", VStr email)]
                (dict_set
                   (filter (fun kv => negb (is_None (snd kv)))
                      (model_dump changes))
                   "updated_at" (VDatetime now))))).
Proof.
  intros Hfound. unfold update_profile. rewrite Hfound.
  unfold find_one in Hfound. apply find_some in Hfound as [_ Hm].
  now rewrite (matches_truthy _ _ _ _ Hm).
Qed.

(** C6.  An update for an email that no stored profile has fails with
    "Profile not found" (status 404), whatever the request body, and the
    store is left as it was. *)
Theorem update_profile_not_found
        (st : store) (email : string) (changes : ProfileUpdate.t)
        (now : datetime)
        (Habsent : forall d, In d (collections st "userprofile") ->
                             dict_get d "email" <> Some (VStr email)) :
  update_profile email changes now (Some st)
  = (inl (HTTPException 404 "Profile not found"), Some st).
Proof.
  unfold update_profile, find_one.
  assert (E : find (matches [("email", VStr email)])
                (collections st "userprofile") = None).
  { apply find_existsb. fold (email_taken st email).
    destruct (email_taken st email) eqn:Et; auto.
    apply email_taken_iff in Et. destruct Et as (d & Hin & Hd).
    now destruct (Habsent d Hin). }
  now rewrite E.
Qed.

(** C7.  A successful update rewrites one stored profile, the first with
    the given email: each field the body provides with a non-null value
    gets that value, [updated_at] gets the current time, at the
    millisecond precision the store keeps, and every other field (also one
    sent as null) keeps its stored value; the other profiles, the other
    collections and the identifier counter stay as they were. *)
Theorem update_profile_merges_provided_fields
        (st : store) (email : string) (changes : ProfileUpdate.t)
        (now : datetime) (found : dict)
        (Hfound : find_one (collections st "userprofile")
                    [("email", VStr email)] = Some found) :
  exists (st' : store) (pre post : list dict) (updated : dict),
    update_profile email changes now (Some st)
    = (inr [("ok", VBool true)], Some st')
    /\ collections st "userprofile" = pre ++ found :: post
    /\ collections st' "userprofile" = pre ++ updated :: post
    /\ (forall c, c <> "userprofile" -> collections st' c = collections st c)
    /\ next_id st' = next_id st
    /\ (forall k, dict_get updated k = merged found changes now k)
    /\ dict_get updated "updated_at" = Some (VDatetime (1000 * (now / 1000)))
    /\ (forall k v, k <> "updated_at" -> provided changes k = Some v ->
                    dict_get updated k = Some v)
    /\ (forall k, k <> "updated_at" -> provided changes k = None ->
                  dict_get updated k = dict_get found k).
Proof.
  destruct (update_one_found [("email", VStr email)]
              (dict_set (filter (fun kv => negb (is_None (snd kv)))
                           (model_dump changes))
                 "updated_at" (VDatetime now))
              _ _ Hfound) as (pre & post & Hcoll & _ & Hupd).
  assert (Hget : forall k,
             dict_get
               (dict_update found
                  (bson_doc
                     (dict_set (filter (fun kv => negb (is_None (snd kv)))
                                  (model_dump changes))
                        "updated_at" (VDatetime now)))) k
             = merged found changes now k).
  { intros k. rewrite dict_get_update by apply NoDup_stored_data.
    rewrite stored_data_get. unfold merged.
    destruct (String.eqb k "updated_at"); reflexivity. }
  eexists _, pre, post, _.
  split; [ exact (update_profile_found _ _ _ _ _ Hfound) | ].
  split; [ exact Hcoll | ].
  split; [ simpl; exact Hupd | ].
  split.
  { intros c Hc. simpl. destruct (String.eqb_spec c "userprofile"); tauto. }
  split; [ reflexivity | ].
  split; [ exact Hget | ].
  split; [ rewrite Hget; reflexivity | ].
  split.
  - intros k v Hk Hv. rewrite Hget. unfold merged.
    destruct (String.eqb_spec k "updated_at"); [ contradiction | ].
    now rewrite Hv.
  - intros k Hk Hn. rewrite Hget. unfold merged.
    destruct (String.eqb_spec k "updated_at"); [ contradiction | ].
    now rewrite Hn.
Qed.

Lemma set_data_no_email changes now :
  ~ In "email"
      (keys (dict_set (filter (fun kv => negb (is_None (snd kv)))
                         (model_dump changes))
               "updated_at" (VDatetime now))).
Proof. apply dict_get_None_iff. rewrite set_data_get. reflexivity. Qed.

Lemma update_one_keeps filt data k : forall docs,
  ~ In k (keys data) ->
  map (fun d => dict_get d k) (update_one docs filt data)
  = map (fun d => dict_get d k) docs.
Proof.
  intros docs Hk. induction docs as [|d docs IH]; simpl; auto.
  destruct (matches filt d); simpl.
  - f_equal. rewrite dict_get_update_last.
    replace (dict_get (rev (bson_doc data)) k) with (@None value); auto.
    symmetry. apply dict_get_None_iff.
    rewrite <- keys_bson_doc in Hk.
    unfold keys in *. now rewrite map_rev, <- in_rev.
  - now rewrite IH.
Qed.

(** C10.  No update changes an email: the request body has no [email]
    field, and after any update request, accepted or not, every stored
    document of every collection has the email it had before. *)
Theorem update_profile_keeps_email
        (st : store) (email : string) (changes : ProfileUpdate.t)
        (now : datetime) :
  ~ In "email" (keys (model_dump changes))
  /\ exists st' : store,
       snd (update_profile email changes now (Some st)) = Some st'
       /\ forall c, map (fun d => dict_get d "email") (collections st' c)
                    = map (fun d => dict_get d "email") (collections st c).
Proof.
  assert (Hbody : ~ In "email" (keys (model_dump changes))).
  { rewrite keys_dump_ProfileUpdate. simpl. intuition discriminate. }
  split; [ exact Hbody | ].
  destruct (find_one (collections st "userprofile") [("email", VStr email)])
    as [found|] eqn:Hfound.
  - rewrite (update_profile_found _ _ _ _ _ Hfound). cbn [snd].
    eexists. split; [ reflexivity | ].
    intros c. unfold set_collection; cbn [collections].
    destruct (String.eqb_spec c "userprofile") as [->|]; auto.
    apply update_one_keeps, set_data_no_email.
  - exists st. split; [ | reflexivity ].
    unfold update_profile. now rewrite Hfound.
Qed.

End HandlerFacts.

(* ------------------------------------------------------------------ *)
(** ** The properties at work on the example store *)

#[local] Existing Instance reference_runtime.

Lemma submit_symptoms_risk_score_witness :
  SymptomCheck_new
    (with_client_fields demo_symptoms (Some "mine") (Some Float64.lit_0_6))
  = inr (with_client_fields demo_symptoms (Some "mine")
           (Some Float64.lit_0_6))
  /\ exists (st' : store) (doc : dict),
       submit_symptoms
         (with_client_fields demo_symptoms (Some "mine")
            (Some Float64.lit_0_6))
         (Some demo_store)
       = (inr [ ("id", VStr "000000000000000000000005");
                ("risk_score",
                  VFloat (S754_finite false 8106479329266892 (-53)));
                ("assessment", VStr assessment_text) ],
          Some st')
       /\ collections st' "symptomcheck" = [doc]
       /\ dict_get doc "risk_score"
          = Some (VFloat (S754_finite false 8106479329266892 (-53)))
       /\ dict_get doc "assessment" = Some (VStr assessment_text)
       /\ submit_symptoms
            (with_client_fields demo_symptoms (Some "mine")
               (Some Float64.lit_0_6))
            (Some demo_store)
          = submit_symptoms demo_symptoms (Some demo_store).
Proof.
  split; [ reflexivity | ].
  destruct (submit_symptoms_risk_score demo_store
              (with_client_fields demo_symptoms (Some "mine")
                 (Some Float64.lit_0_6)) eq_refl)
    as (st' & doc & Hrun & Hcoll & _ & Hrisk & Has & _ & _ & Hsame & _).
  exists st', doc.
  split; [ rewrite Hrun; vm_compute; reflexivity | ].
  split; [ rewrite Hcoll; reflexivity | ].
  split; [ rewrite Hrisk; vm_compute; reflexivity | ].
  split; [ exact Has | ].
  symmetry. apply (Hsame None None). reflexivity.
Defined.

(** C1, as the specification words it, fails for a score the schema does
    not accept: a submission that carries [risk_score] 5.0 is not stored
    with a computed score but rejected, while the same submission without
    the field is answered. *)
Lemma submit_symptoms_client_score_rejected :
  SymptomCheck.risk_score
    (with_client_fields demo_symptoms None (Some demo_score_5_0))
  = Some demo_score_5_0
  /\ submit_symptoms
       (with_client_fields demo_symptoms None (Some demo_score_5_0))
       (Some demo_store)
     = (inl (RequestValidationError "risk_score"), Some demo_store)
  /\ fst (submit_symptoms demo_symptoms (Some demo_store))
     = inr [ ("id", VStr "000000000000000000000005");
             ("risk_score",
               VFloat (S754_finite false 8106479329266892 (-53)));
             ("assessment", VStr assessment_text) ]
  /\ submit_symptoms
       (with_client_fields demo_symptoms None (Some demo_score_5_0))
       (Some demo_store)
     <> submit_symptoms demo_symptoms (Some demo_store).
Proof.
  split; [ reflexivity | ].
  split; [ vm_compute; reflexivity | ].
  split; [ vm_compute; reflexivity | ].
  intros H. apply (f_equal fst) in H. vm_compute in H. discriminate H.
Qed.

Lemma chat_user_message_witness :
  ChatMessage.role demo_user_message = user
  /\ exists (st' : store) (sent reply : dict),
    chat demo_user_message (Some demo_store)
    = (inr [ ("user_message_id",
               VStr (py_str (VObjectId (next_id demo_store))));
             ("assistant_message_id",
               VStr (py_str (VObjectId (N.succ (next_id demo_store)))));
             ("reply", VStr reply_text) ],
       Some st')
    /\ (forall c, collections st' c
                  = if String.eqb c "chatmessage"
                    then (collections demo_store c ++ [sent; reply])%list
                    else collections demo_store c)
    /\ sent = ("_id", VObjectId (next_id demo_store))
                :: present (model_dump demo_user_message)
    /\ dict_get sent "role" = Some (VStr "user")
    /\ dict_get sent "content"
       = Some (VStr (ChatMessage.content demo_user_message))
    /\ dict_get reply "_id" = Some (VObjectId (N.succ (next_id demo_store)))
    /\ dict_get reply "role" = Some (VStr "assistant")
    /\ dict_get reply "content" = Some (VStr reply_text)
    /\ dict_get reply "conversation_id"
       = option_map VStr (ChatMessage.conversation_id demo_user_message)
    /\ dict_get reply "conversation_id" = dict_get sent "conversation_id"
    /\ dict_get reply "owner_email"
       = option_map VStr (ChatMessage.owner_email demo_user_message)
    /\ dict_get reply "owner_email" = dict_get sent "owner_email".
Proof.
  split; [ reflexivity | ].
  apply (chat_user_message demo_store demo_user_message). reflexivity.
Defined.

Lemma chat_assistant_message_witness :
  ChatMessage.role (with_role demo_user_message assistant) = assistant
  /\ exists st' : store,
       snd (chat (with_role demo_user_message assistant) (Some demo_store))
       = Some st'
       /\ map (fun d => dict_get d "role") (collections st' "chatmessage")
          = [ Some (VStr "user"); Some (VStr "user"); Some (VStr "user");
              Some (VStr "assistant"); Some (VStr "assistant") ].
Proof.
  split; [ reflexivity | ].
  destruct (chat_assistant_message demo_store
              (with_role demo_user_message assistant) eq_refl)
    as (st' & sent & reply & Hrun & Hcoll & -> & _ & -> & _).
  exists st'. split.
  - rewrite Hrun. reflexivity.
  - rewrite Hcoll. reflexivity.
Defined.

Lemma serialize_witness :
  NoDup (keys demo_profile)
  /\ (dict_get demo_profile "_id" = None \/ dict_get demo_profile "id" = None)
  /\ exists r : dict,
       _serialize (Some demo_profile) = Some r
       /\ dict_get r "_id" = None
       /\ dict_get r "id" = Some (VStr "000000000000000000000001")
       /\ dict_get r "email" = Some (VStr "ada@example.org").
Proof.
  assert (Hdict : NoDup (keys demo_profile)).
  { nodup_literals. }
  split; [ exact Hdict | ].
  split; [ right; reflexivity | ].
  destruct (serialize_total_idempotent_fieldwise demo_profile Hdict
              (or_intror eq_refl))
    as (_ & _ & r & Hr & Hno & Hid & _ & Hother & _).
  exists r. split; [ exact Hr | ]. split; [ exact Hno | ]. split.
  - apply (Hid (VObjectId 1%N)). reflexivity.
  - apply Hother; [ discriminate | reflexivity | reflexivity ].
Defined.

(** C4, as the specification words it, fails on a document with an [id]
    of its own in front of [_id]: the field [id], which is neither the
    identifier nor a datetime, does not come through unchanged. *)
Lemma serialize_id_collision :
  NoDup (keys colliding_doc)
  /\ dict_get colliding_doc "id" = Some (VInt 7)
  /\ _serialize (Some colliding_doc)
     = Some [("id", VStr "000000000000000000000001")]
  /\ ~ (forall k v, k <> "_id" -> is_datetime v = false ->
                    dict_get colliding_doc k = Some v ->
                    dict_get (serialize_doc colliding_doc) k = Some v).
Proof.
  split.
  { nodup_literals. }
  split; [ reflexivity | ].
  split; [ reflexivity | ].
  intros H. specialize (H "id" (VInt 7)).
  assert (E : dict_get (serialize_doc colliding_doc) "id" = Some (VInt 7)).
  { apply H; [ discriminate | reflexivity | reflexivity ]. }
  discriminate E.
Qed.

Lemma list_endpoints_limit_witness :
  Forall created_at_typed (collections demo_store "chatmessage")
  /\ limit_served 25 1 100 (Some 2) demo_store
       (list_reports None (Some 2) (Some demo_store))
  /\ limit_served 25 1 100 (Some 2) demo_store
       (list_symptom_checks None (Some 2) (Some demo_store))
  /\ limit_served 50 1 200 (Some 2) demo_store
       (chat_history (Some "c1") None (Some 2) (fun _ => 0) (Some demo_store))
  /\ limit_served 50 1 100 (Some 2) demo_store
       (list_reminders None (Some 2) (Some demo_store)).
Proof.
  assert (Htyped : Forall created_at_typed
                     (collections demo_store "chatmessage")).
  { repeat constructor. }
  split; [ exact Htyped | ].
  apply (list_endpoints_limit demo_store (Some "c1") None (Some 2)
           (fun _ => 0) Htyped).
Defined.

Lemma update_profile_not_found_witness :
  (forall d, In d (collections demo_store "userprofile") ->
             dict_get d "email" <> Some (VStr "a@b.com"))
  /\ update_profile "a@b.com" demo_age_update 0 (Some demo_store)
     = (inl (HTTPException 404 "Profile not found"), Some demo_store).
Proof.
  assert (Habsent : forall d, In d (collections demo_store "userprofile") ->
                              dict_get d "email" <> Some (VStr "a@b.com")).
  { intros d [<-|[]]. discriminate. }
  split; [ exact Habsent | ].
  apply (update_profile_not_found demo_store "a@b.com" demo_age_update 0
           Habsent).
Defined.

Lemma update_profile_merges_witness :
  find_one (collections demo_store "userprofile")
    [("email", VStr "ada@example.org")] = Some demo_profile
  /\ exists (st' : store) (updated : dict),
       update_profile "ada@example.org" demo_age_update 63844809909000123
         (Some demo_store)
       = (inr [("ok", VBool true)], Some st')
       /\ collections st' "userprofile" = [updated]
       /\ dict_get updated "age" = Some (VInt 31)
       /\ dict_get updated "updated_at" = Some (VDatetime 63844809909000000)
       /\ dict_get updated "name" = Some (VStr "Ada")
       /\ dict_get updated "email" = Some (VStr "ada@example.org").
Proof.
  split; [ reflexivity | ].
  destruct (update_profile_merges_provided_fields demo_store
              "ada@example.org" demo_age_update 63844809909000123
              demo_profile eq_refl)
    as (st' & pre & post & updated & Hrun & Hpre & Hpost & _ & _ & Hget & _).
  destruct pre as [|d pre]; [ | destruct pre; discriminate Hpre ].
  injection Hpre as <-.
  exists st', updated. rewrite Hpost, !Hget. repeat split. exact Hrun.
Defined.

Lemma chat_history_sorted_witness :
  Forall created_at_typed (collections demo_store "chatmessage")
  /\ Query 50 1 200 (Some 2) = inr 2
  /\ exists docs : list dict,
       chat_history (Some "c1") None (Some 2) (fun _ => 0) (Some demo_store)
       = (inr (map serialize_doc docs), Some demo_store)
       /\ Permutation
            (firstn (Z.to_nat 2)
               (filter (matches (chat_filter (Some "c1") None))
                  (collections demo_store "chatmessage")))
            docs
       /\ StronglySorted created_le docs
       /\ forall ts : list datetime,
            map (fun d => dict_get d "created_at") docs
            = map (fun t => Some (VDatetime t)) ts ->
            StronglySorted Z.le ts.
Proof.
  assert (Htyped : Forall created_at_typed
                     (collections demo_store "chatmessage")).
  { repeat constructor. }
  split; [ exact Htyped | ].
  split; [ reflexivity | ].
  apply (chat_history_sorted_by_created_at demo_store (Some "c1") None
           (Some 2) 2 (fun _ => 0) Htyped eq_refl).
Defined.

(* ------------------------------------------------------------------ *)
(** ** The handlers run *)

(** The limit cuts the stored sequence before the sort: of the three
    stored messages the first two are returned, in order of creation. *)
Example chat_history_demo :
  fst (chat_history (Some "c1") None (Some 2) (fun _ => 0) (Some demo_store))
  = inr [ [ ("id", VStr "000000000000000000000002");
            ("conversation_id", VStr "c1"); ("role", VStr "user");
            ("content", VStr "second");
            ("created_at", VStr "2024-02-29T13:25:09.000123") ];
          [ ("id", VStr "000000000000000000000003");
            ("conversation_id", VStr "c1"); ("role", VStr "user");
            ("content", VStr "third");
            ("created_at", VStr "2024-02-29T13:25:10") ] ].
Proof. vm_compute. reflexivity. Qed.

Example chat_history_all_demo :
  option_map (map (fun d => dict_get d "content"))
    (match fst (chat_history None None None (fun _ => 0) (Some demo_store))
     with inr docs => Some docs | inl _ => None end)
  = Some [ Some (VStr "first"); Some (VStr "second"); Some (VStr "third") ].
Proof. vm_compute. reflexivity. Qed.

Example create_profile_demo :
  fst (create_profile
         {| UserProfile.name := "Ada"; UserProfile.email := "ada@example.org";
            UserProfile.phone := None; UserProfile.age := None;
            UserProfile.gender := None; UserProfile.height_cm := None;
            UserProfile.weight_kg := None; UserProfile.theme := dark;
            UserProfile.notifications_enabled := true |}
         (Some demo_store))
  = inl (HTTPException 400 "Profile with this email already exists").
Proof. vm_compute. reflexivity. Qed.

Example store_unavailable_demo :
  fst (chat demo_user_message None) = inl StoreUnavailable
  /\ fst (update_profile "a@b.com" demo_age_update 0 None)
     = inl (HTTPException 503 "Database not available").
Proof. split; reflexivity. Qed.

(* ================================================================== *)
(** * Further properties of the handlers *)
(* ================================================================== *)

Section MoreHandlerFacts.

Context {R : PyRuntime}.

Lemma value_eqb_refl v : value_eqb v v = true.
Proof. unfold value_eqb. destruct (value_eq_dec v v); congruence. Qed.

Lemma value_eqb_eq v w : value_eqb v w = true <-> v = w.
Proof.
  unfold value_eqb. destruct (value_eq_dec v w); split; congruence.
Qed.

Lemma matches_email d email :
  matches [("email", VStr email)] d = true
  <-> dict_get d "email" = Some (VStr email).
Proof.
  unfold matches; simpl.
  destruct (dict_get d "email") as [v|]; [ | split; discriminate ].
  rewrite andb_true_r, value_eqb_eq. split; congruence.
Qed.

Lemma collections_insert_same st c d :
  collections (store_insert st c d) c = collections st c ++ [d].
Proof. simpl. now rewrite String.eqb_refl. Qed.

Lemma collections_insert_other st c d c' :
  c' <> c -> collections (store_insert st c d) c' = collections st c'.
Proof.
  intros H. simpl. destruct (String.eqb_spec c' c); [ contradiction | auto ].
Qed.

Lemma filter_none {A : Type} (p : A -> bool) (l : list A) :
  existsb p l = false -> filter p l = [].
Proof.
  induction l as [|x l IH]; simpl; auto.
  destruct (p x); simpl; [ discriminate | exact IH ].
Qed.

Lemma firstn_1_filter {A : Type} (p : A -> bool) (l : list A) :
  firstn 1 (filter p l) = match find p l with Some x => [x] | None => [] end.
Proof.
  induction l as [|x l IH]; simpl; auto.
  destruct (p x); simpl; auto.
Qed.

(** X1.  [get_profile] answers with the serialization of the first stored
    profile that has the email, and with "Profile not found" (404) exactly
    when no stored profile has it; without a store connection it fails as
    the adapter does.  It never changes the store. *)
Theorem get_profile_first_match (db : database) (email : string) :
  get_profile email db
  = match db with
    | None => (inl StoreUnavailable, None)
    | Some st =>
        match find_one (collections st "userprofile")
                [("email", VStr email)] with
        | Some d => (inr (serialize_doc d), Some st)
        | None => (inl (HTTPException 404 "Profile not found"), Some st)
        end
    end
  /\ forall st, db = Some st ->
       (find_one (collections st "userprofile") [("email", VStr email)] = None
        <-> forall d, In d (collections st "userprofile") ->
                      dict_get d "email" <> Some (VStr email)).
Proof.
  split.
  - destruct db as [st|]; [ | reflexivity ].
    unfold get_profile, bind, get_documents, find_one.
    change (Z.to_nat 1) with 1%nat. rewrite firstn_1_filter.
    destruct (find _ _); reflexivity.
  - intros st _. unfold find_one. rewrite find_existsb.
    fold (email_taken st email). split.
    + intros Hf d Hin Hd.
      assert (email_taken st email = true) by (apply email_taken_iff; eauto).
      congruence.
    + intros H. destruct (email_taken st email) eqn:E; auto.
      apply email_taken_iff in E. destruct E as (d & Hin & Hd).
      now destruct (H d Hin).
Qed.

Lemma serialize_stored_profile oid (p : UserProfile.t) :
  serialize_doc (stored_doc oid p)
  = ("id", VStr (py_str (VObjectId oid))) :: present (model_dump p).
Proof.
  destruct p as [n e [ph|] [a|] [g|] [h|] [w|] t ne]; reflexivity.
Qed.

Lemma stored_profile_email oid (p : UserProfile.t) :
  dict_get (stored_doc oid p) "email" = Some (VStr (UserProfile.email p)).
Proof. reflexivity. Qed.

Lemma create_profile_free st (p : UserProfile.t) :
  email_taken st (UserProfile.email p) = false ->
  create_profile p (Some st)
  = (inr [("id", VStr (py_str (VObjectId (next_id st))))],
     Some (store_insert st "userprofile" (stored_doc (next_id st) p))).
Proof.
  intros Hfree.
  unfold create_profile, bind, get_documents.
  change (Z.to_nat 1) with 1%nat. rewrite truthy_firstn_filter.
  fold (email_taken st (UserProfile.email p)). rewrite Hfree. reflexivity.
Qed.

(** X2.  A profile that was created is read back: when the email is free,
    [create_profile] succeeds and a following [get_profile] for that email
    returns the identifier that creation returned, as [id], followed by
    the profile's set fields. *)
Theorem create_then_get_profile (st : store) (profile : UserProfile.t)
        (Hfree : email_taken st (UserProfile.email profile) = false) :
  exists (st' : store) (new_id : string),
    create_profile profile (Some st) = (inr [("id", VStr new_id)], Some st')
    /\ get_profile (UserProfile.email profile) (Some st')
       = (inr (("id", VStr new_id) :: present (model_dump profile)),
          Some st').
Proof.
  eexists _, _. split; [ apply create_profile_free, Hfree | ].
  unfold get_profile, bind, get_documents.
  change (Z.to_nat 1) with 1%nat. rewrite collections_insert_same.
  rewrite filter_app, (filter_none _ _ Hfree). cbn [filter app].
  assert (Hm : matches [("email", VStr (UserProfile.email profile))]
                 (stored_doc (next_id st) profile) = true).
  { apply matches_email, stored_profile_email. }
  rewrite Hm. cbn [firstn app]. now rewrite serialize_stored_profile.
Qed.

(** X3.  Creating a second profile under an email that a first creation
    just took fails with the duplicate-email error and stores nothing
    more. *)
Theorem create_profile_twice (st : store) (first second : UserProfile.t)
        (Hfree : email_taken st (UserProfile.email first) = false)
        (Hsame : UserProfile.email second = UserProfile.email first) :
  exists st' : store,
    snd (create_profile first (Some st)) = Some st'
    /\ collections st' "userprofile"
       = collections st "userprofile" ++ [stored_doc (next_id st) first]
    /\ create_profile second (Some st')
       = (inl (HTTPException 400 "Profile with this email already exists"),
          Some st').
Proof.
  eexists. split; [ rewrite (create_profile_free _ _ Hfree); reflexivity | ].
  split; [ apply collections_insert_same | ].
  unfold create_profile, bind, get_documents.
  change (Z.to_nat 1) with 1%nat. rewrite truthy_firstn_filter.
  rewrite collections_insert_same, existsb_app. cbn [existsb]. rewrite Hsame.
  assert (Hm : matches [("email", VStr (UserProfile.email first))]
                 (stored_doc (next_id st) first) = true).
  { apply matches_email, stored_profile_email. }
  rewrite Hm, orb_true_r. reflexivity.
Qed.

(* ------------------------------------------------------------------ *)
(** ** More on profile updates *)

Lemma updated_get found (changes : ProfileUpdate.t) now k :
  dict_get
    (dict_update found
       (bson_doc
          (dict_set (filter (fun kv => negb (is_None (snd kv)))
                       (model_dump changes))
             "updated_at" (VDatetime now)))) k
  = merged found changes now k.
Proof.
  rewrite dict_get_update by apply NoDup_stored_data.
  rewrite stored_data_get. unfold merged.
  destruct (String.eqb k "updated_at"); reflexivity.
Qed.

Lemma provided_scalar (changes : ProfileUpdate.t) k v :
  provided changes k = Some v ->
  is_datetime v = false /\ In k update_keys /\ k <> "updated_at".
Proof.
  unfold provided.
  repeat match goal with
         | |- context [String.eqb ?a k] =>
             destruct (String.eqb_spec a k) as [<-|?]
         end;
    intros Hv; try discriminate Hv;
    match type of Hv with
    | option_map _ ?o = Some _ =>
        destruct o; simpl in Hv; [ injection Hv as <- | discriminate Hv ]
    end;
    (split; [ reflexivity | split; [ simpl; tauto | discriminate ] ]).
Qed.

Lemma provided_outside (changes : ProfileUpdate.t) k :
  ~ In k update_keys -> provided changes k = None.
Proof.
  intros Hk. destruct (provided changes k) as [v|] eqn:E; auto.
  apply provided_scalar in E. tauto.
Qed.

Lemma merged_outside found (changes : ProfileUpdate.t) now k :
  ~ In k update_keys -> merged found changes now k = dict_get found k.
Proof.
  intros Hk. unfold merged. rewrite (provided_outside _ _ Hk).
  destruct (String.eqb_spec k "updated_at") as [->|]; auto.
  exfalso. apply Hk. simpl. tauto.
Qed.

Lemma set_data_keys (changes : ProfileUpdate.t) now k :
  ~ In k update_keys ->
  ~ In k (keys (dict_set (filter (fun kv => negb (is_None (snd kv)))
                            (model_dump changes))
                  "updated_at" (VDatetime now))).
Proof.
  intros Hk. apply dict_get_None_iff. rewrite set_data_get.
  rewrite (provided_outside _ _ Hk).
  destruct (String.eqb_spec k "updated_at") as [->|]; auto.
  exfalso. apply Hk. simpl. tauto.
Qed.

Lemma length_update_one filt data docs :
  List.length (update_one docs filt data) = List.length docs.
Proof.
  induction docs as [|d docs IH]; simpl; auto.
  destruct (matches filt d); simpl; auto.
Qed.

Lemma find_app_first {A : Type} (p : A -> bool) pre x post :
  Forall (fun y => p y = false) pre -> p x = true ->
  find p (pre ++ x :: post) = Some x.
Proof.
  induction 1 as [|y pre Hy _ IH]; intros Hx; simpl.
  - now rewrite Hx.
  - rewrite Hy. now apply IH.
Qed.

Lemma update_one_app_first filt data pre d post :
  Forall (fun y => matches filt y = false) pre -> matches filt d = true ->
  update_one (pre ++ d :: post) filt data
  = pre ++ dict_update d (bson_doc data) :: post.
Proof.
  induction 1 as [|y pre Hy _ IH]; intros Hd; simpl.
  - now rewrite Hd.
  - rewrite Hy. now rewrite IH.
Qed.

Lemma updated_matches found (changes : ProfileUpdate.t) now email :
  matches [("email", VStr email)] found = true ->
  matches [("email", VStr email)]
    (dict_update found
       (bson_doc
          (dict_set (filter (fun kv => negb (is_None (snd kv)))
                       (model_dump changes))
             "updated_at" (VDatetime now)))) = true.
Proof.
  rewrite !matches_email, updated_get. intros H.
  rewrite merged_outside; auto.
  simpl. intuition discriminate.
Qed.

(** X4.  Whatever an update request does, it leaves alone what it has no
    field for: in every collection the number of documents is the same
    afterwards, the identifier counter is the same, and every key other
    than the eight body fields and [updated_at] (so [_id], [email],
    [created_at], ...) reads in every document as before. *)
Theorem update_profile_frame
        (st : store) (email : string) (changes : ProfileUpdate.t)
        (now : datetime) :
  exists st' : store,
    snd (update_profile email changes now (Some st)) = Some st'
    /\ next_id st' = next_id st
    /\ forall c,
         List.length (collections st' c) = List.length (collections st c)
         /\ forall k, ~ In k update_keys ->
              map (fun d => dict_get d k) (collections st' c)
              = map (fun d => dict_get d k) (collections st c).
Proof.
  destruct (find_one (collections st "userprofile") [("email", VStr email)])
    as [found|] eqn:Hfound.
  - rewrite (update_profile_found _ _ _ _ _ Hfound). cbn [snd].
    eexists. split; [ reflexivity | ]. split; [ reflexivity | ].
    intros c. unfold set_collection; cbn [collections].
    destruct (String.eqb_spec c "userprofile") as [->|]; [ | auto ].
    split; [ apply length_update_one | ].
    intros k Hk. apply update_one_keeps, set_data_keys, Hk.
  - exists st. split; [ | auto ].
    unfold update_profile. now rewrite Hfound.
Qed.

Lemma dict_set_same_value d k v :
  dict_get d k = Some v -> dict_set d k v = d.
Proof.
  induction d as [|[k' v'] d IH]; simpl; [ discriminate | ].
  destruct (String.eqb k' k).
  - now intros [= ->].
  - intros H. now rewrite IH.
Qed.

Lemma dict_update_fixed data : forall d,
  (forall k v, In (k, v) data -> dict_get d k = Some v) ->
  dict_update d data = d.
Proof.
  unfold dict_update.
  induction data as [|[k v] data IH]; intros d H; simpl; auto.
  rewrite dict_set_same_value by (apply H; now left).
  apply IH. intros k' v' Hin. apply H. now right.
Qed.

Lemma dict_update_twice d data :
  NoDup (keys data) ->
  dict_update (dict_update d data) data = dict_update d data.
Proof.
  intros Hnd. apply dict_update_fixed. intros k v Hin.
  rewrite dict_get_update by exact Hnd.
  apply (dict_get_In data k v Hnd) in Hin. now rewrite Hin.
Qed.

(** X5.  Repeating an update request with the same body at the same clock
    reading changes nothing more: the second request has the outcome of
    the first and leaves every collection as the first left it. *)
Theorem update_profile_twice
        (st : store) (email : string) (changes : ProfileUpdate.t)
        (now : datetime) :
  exists st1 st2 : store,
    snd (update_profile email changes now (Some st)) = Some st1
    /\ update_profile email changes now (Some st1)
       = (fst (update_profile email changes now (Some st)), Some st2)
    /\ next_id st2 = next_id st1
    /\ forall c, collections st2 c = collections st1 c.
Proof.
  destruct (find_one (collections st "userprofile") [("email", VStr email)])
    as [found|] eqn:Hfound.
  - rewrite (update_profile_found _ _ _ _ _ Hfound). cbn [fst snd].
    destruct (update_one_found [("email", VStr email)]
                (dict_set (filter (fun kv => negb (is_None (snd kv)))
                             (model_dump changes))
                   "updated_at" (VDatetime now))
                _ _ Hfound) as (pre & post & Hcoll & Hpre & Hupd).
    assert (Hm : matches [("email", VStr email)] found = true).
    { unfold find_one in Hfound. now apply find_some in Hfound. }
    pose proof (updated_matches found changes now email Hm) as Hm'.
    eexists _, _. split; [ reflexivity | ]. split.
    + eapply update_profile_found. unfold find_one.
      unfold set_collection; cbn [collections]. rewrite String.eqb_refl.
      rewrite Hupd. now apply find_app_first.
    + split; [ reflexivity | ].
      intros c. unfold set_collection; cbn [collections].
      destruct (String.eqb c "userprofile"); auto.
      rewrite String.eqb_refl.
      rewrite Hupd, update_one_app_first by assumption.
      now rewrite dict_update_twice by apply NoDup_stored_data.
  - exists st, st.
    assert (E : update_profile email changes now (Some st)
                = (inl (HTTPException 404 "Profile not found"), Some st)).
    { unfold update_profile. now rewrite Hfound. }
    rewrite E. auto.
Qed.



(* ------------------------------------------------------------------ *)
(** ** More on [_serialize] *)

Lemma length_dict_set d k v :
  (List.length (dict_set d k v) <= S (List.length d))%nat.
Proof.
  induction d as [|[k' v'] d IH]; simpl; auto.
  destruct (String.eqb k' k); simpl; lia.
Qed.

Lemma length_dict_update data : forall d,
  (List.length (dict_update d data) <= List.length d + List.length data)%nat.
Proof.
  unfold dict_update.
  induction data as [|[k v] data IH]; intros d; simpl; [ lia | ].
  specialize (IH (dict_set d k v)). pose proof (length_dict_set d k v). lia.
Qed.

Lemma keys_dict_update d data k :
  In k (keys (dict_update d data)) <-> In k (keys d) \/ In k (keys data).
Proof.
  assert (H : dict_get (dict_update d data) k = None
              <-> dict_get d k = None /\ dict_get (rev data) k = None).
  { rewrite dict_get_update_last.
    destruct (dict_get (rev data) k); split; try tauto; try discriminate;
      intros [_ H]; discriminate H. }
  rewrite !dict_get_None_iff in H.
  assert (Hrev : In k (keys (rev data)) <-> In k (keys data)).
  { unfold keys. rewrite map_rev. symmetry. apply in_rev. }
  destruct (in_dec string_dec k (keys (dict_update d data))),
    (in_dec string_dec k (keys d)), (in_dec string_dec k (keys data));
    tauto.
Qed.

(** X8.  Whatever the document, the result of [_serialize] has no [_id]
    key and no datetime value, no key twice, and no more fields than the
    document; its keys are the document's keys other than [_id], and [id]
    when the document has an [_id]. *)
Theorem serialize_public_shape (d : dict) :
  NoDup (keys (serialize_doc d))
  /\ ~ In "_id" (keys (serialize_doc d))
  /\ (forall k v, In (k, v) (serialize_doc d) -> is_datetime v = false)
  /\ (forall k, In k (keys (serialize_doc d))
                <-> (k <> "_id" /\ In k (keys d))
                    \/ (k = "id" /\ In "_id" (keys d)))
  /\ (List.length (serialize_doc d) <= List.length d)%nat.
Proof.
  destruct (serialize_doc_shape d) as [Hnd Hp].
  assert (Hkeys : forall k, In k (keys (serialize_doc d))
                <-> (k <> "_id" /\ In k (keys d))
                    \/ (k = "id" /\ In "_id" (keys d))).
  { intros k. rewrite serialize_doc_update, keys_dict_update, keys_public.
    rewrite in_map_iff. simpl. split.
    - intros [[]|(k0 & Hk0 & Hin)]. revert Hk0.
      destruct (String.eqb_spec k0 "_id") as [->|Hne]; intros <-.
      + right. now split.
      + left. now split.
    - intros [[Hne Hin]|[-> Hin]]; right.
      + exists k. split; auto.
        destruct (String.eqb_spec k "_id"); [ contradiction | reflexivity ].
      + exists "_id". split; auto. }
  split; [ exact Hnd | ].
  split.
  { rewrite Hkeys. intros [[H _]|[H _]]; [ now apply H | discriminate H ]. }
  split.
  { intros k v Hin. rewrite Forall_forall in Hp. apply (Hp (k, v) Hin). }
  split; [ exact Hkeys | ].
  rewrite serialize_doc_update.
  pose proof (length_dict_update (map public_item d) []) as H.
  rewrite length_map in H. exact H.
Qed.

(** X9.  On a well-formed document that does not hold both [_id] and
    [id], [_serialize] works field by field: the result lists the
    document's fields in the document's order, [_id] renamed to [id] with
    its value as a string, datetimes as ISO text, the rest as they are. *)
Theorem serialize_fieldwise_in_order (d : dict)
        (Hdict : NoDup (keys d))
        (Hone : dict_get d "_id" = None \/ dict_get d "id" = None) :
  serialize_doc d = map public_item d
  /\ List.length (serialize_doc d) = List.length d.
Proof.
  assert (E : serialize_doc d = map public_item d).
  { rewrite serialize_doc_update. apply dict_update_fresh.
    simpl. now apply NoDup_keys_public. }
  split; [ exact E | ].
  rewrite E. apply length_map.
Qed.

(* ------------------------------------------------------------------ *)
(** ** More on the chat history *)

Lemma chat_history_unfold st conversation_id owner_email limit n utcnow :
  Query 50 1 200 limit = inr n ->
  chat_history conversation_id owner_email limit utcnow (Some st)
  = match list_sort (created_at_key utcnow)
            (chat_selection st conversation_id owner_email n) with
    | inl e => (inl e, Some st)
    | inr docs => (inr (map serialize_doc docs), Some st)
    end.
Proof.
  intros HQ. unfold chat_history, bind. rewrite HQ.
  cbv beta iota delta [lift ret get_documents].
  fold (chat_filter conversation_id owner_email).
  fold (chat_selection st conversation_id owner_email n).
  destruct (list_sort _ _); reflexivity.
Qed.

Lemma serialize_message_doc oid (m : ChatMessage.t) :
  serialize_doc (message_doc oid m)
  = ("id", VStr (py_str (VObjectId oid))) :: present (model_dump m).
Proof. destruct m as [[c|] r t [o|]]; reflexivity. Qed.

Lemma message_doc_no_created_at oid (m : ChatMessage.t) :
  dict_get (message_doc oid m) "created_at" = None.
Proof. destruct m as [[c|] r t [o|]]; reflexivity. Qed.

Lemma matches_conversation d c :
  matches [("conversation_id", VStr c)] d = true
  <-> dict_get d "conversation_id" = Some (VStr c).
Proof.
  unfold matches; simpl.
  destruct (dict_get d "conversation_id") as [v|]; [ | split; discriminate ].
  rewrite andb_true_r, value_eqb_eq. split; congruence.
Qed.

Lemma filter_nothing {A : Type} (p : A -> bool) (l : list A) :
  (forall x, In x l -> p x = false) -> filter p l = [].
Proof.
  induction l as [|x l IH]; simpl; intros H; auto.
  rewrite (H x) by now left. apply IH. intros y Hy. apply H. now right.
Qed.

(** X10.  A message sent to a conversation that has no stored message yet
    is read back with its reply: the history of that conversation is then
    the submitted message followed by the assistant reply, each with its
    identifier as [id] (the clock not running backwards between the two
    key computations of the sort). *)
Theorem chat_then_history
        (st : store) (message : ChatMessage.t) (c : string)
        (utcnow : nat -> datetime)
        (Hconv : ChatMessage.conversation_id message = Some c)
        (Hc : c <> "")
        (Hnew : forall d, In d (collections st "chatmessage") ->
                          dict_get d "conversation_id" <> Some (VStr c))
        (Hclock : utcnow 0%nat <= utcnow 1%nat) :
  exists st' : store,
    snd (chat message (Some st)) = Some st'
    /\ chat_history (Some c) None None utcnow (Some st')
       = (inr [ ("id", VStr (py_str (VObjectId (next_id st))))
                  :: present (model_dump message);
                ("id", VStr (py_str (VObjectId (N.succ (next_id st)))))
                  :: present (model_dump (reply_to message)) ],
          Some st').
Proof.
  rewrite chat_run. eexists. split; [ reflexivity | ].
  rewrite (chat_history_unfold _ _ _ _ 50) by reflexivity.
  unfold chat_selection. rewrite collections_two_inserts.
  change (String.eqb "chatmessage" "chatmessage") with true. cbv iota.
  assert (Hfilt : chat_filter (Some c) None = [("conversation_id", VStr c)]).
  { unfold chat_filter, owner_filter, truthy_opt_str.
    destruct (String.eqb_spec c ""); [ contradiction | reflexivity ]. }
  rewrite Hfilt, filter_app.
  rewrite filter_nothing.
  2:{ intros d Hin. destruct (matches _ d) eqn:E; auto.
      apply matches_conversation in E. now destruct (Hnew d Hin). }
  assert (H1 : matches [("conversation_id", VStr c)]
                 (message_doc (next_id st) message) = true).
  { apply matches_conversation.
    destruct (message_doc_fields (next_id st) message) as (_ & -> & _).
    now rewrite Hconv. }
  assert (H2 : matches [("conversation_id", VStr c)]
                 (message_doc (N.succ (next_id st)) (reply_to message)) = true).
  { apply matches_conversation.
    destruct (message_doc_fields (N.succ (next_id st)) (reply_to message))
      as (_ & -> & _).
    simpl. now rewrite Hconv. }
  cbn [filter app]. rewrite H1, H2.
  change (firstn (Z.to_nat 50) ?l) with l.
  unfold list_sort, keyed, created_at_key; cbn [List.length seq combine map fst snd].
  rewrite !message_doc_no_created_at.
  cbn [sort_keyed insert_keyed fst py_lt].
  destruct (Z.ltb_spec (utcnow 1%nat) (utcnow 0%nat)); [ lia | ].
  cbn [map snd]. now rewrite !serialize_message_doc.
Qed.

Lemma py_lt_same_class a b c :
  key_class a = Some c -> key_class b = Some c -> exists r, py_lt a b = Some r.
Proof.
  destruct a, b; simpl; intros Ha Hb; try discriminate; try congruence;
    eexists; reflexivity.
Qed.

Lemma py_lt_other_class a b c :
  key_class a = Some (negb c) -> key_class b = Some c -> py_lt a b = None.
Proof.
  destruct a, b, c; simpl; intros Ha Hb; try discriminate; reflexivity.
Qed.

Lemma insert_keyed_same_class {A : Type} (x : value * A) c :
  key_class (fst x) = Some c ->
  forall acc,
    Forall (fun y : value * A => key_class (fst y) = Some c) acc ->
    exists acc', insert_keyed x acc = Some acc'
                 /\ acc' <> []
                 /\ Forall (fun y : value * A => key_class (fst y) = Some c)
                      acc'.
Proof.
  intros Hx. induction acc as [|y acc IH]; intros Hacc; simpl.
  - exists [x]. repeat split; auto. discriminate.
  - inversion Hacc as [|? ? Hy Hacc']; subst.
    destruct (py_lt_same_class _ _ _ Hx Hy) as [[|] ->].
    + exists (x :: y :: acc). repeat split; auto. discriminate.
    + destruct (IH Hacc') as (acc' & -> & _ & Hall).
      exists (y :: acc'). repeat split; auto. discriminate.
Qed.

Lemma sort_keyed_mixed {A : Type} c (todo : list (value * A)) :
  forall acc,
    acc <> [] ->
    Forall (fun y : value * A => key_class (fst y) = Some c) acc ->
    Forall (fun y : value * A => key_class (fst y) <> None) todo ->
    (exists x, In x todo /\ key_class (fst x) = Some (negb c)) ->
    sort_keyed todo acc = None.
Proof.
  induction todo as [|x todo IH]; intros acc Hne Hacc Htodo (z & Hz & Hcz).
  - destruct Hz.
  - simpl. inversion Htodo as [|? ? Hx Htodo']; subst.
    destruct (key_class (fst x)) as [cx|] eqn:Ex; [ | congruence ].
    destruct (Bool.bool_dec cx c) as [->|Hdiff].
    + destruct (insert_keyed_same_class x c Ex acc Hacc)
        as (acc' & -> & Hne' & Hacc').
      apply IH; auto.
      destruct Hz as [<-|Hz]; [ | eauto ].
      rewrite Ex in Hcz. destruct c; discriminate.
    + destruct acc as [|y acc]; [ congruence | ].
      inversion Hacc; subst. simpl.
      rewrite (py_lt_other_class (fst x) (fst y) c); auto.
      rewrite Ex. f_equal. destruct cx, c; simpl; congruence.
Qed.

Lemma sort_keyed_two_classes {A : Type} (l : list (value * A)) :
  Forall (fun y : value * A => key_class (fst y) <> None) l ->
  (exists x, In x l /\ key_class (fst x) = Some true) ->
  (exists x, In x l /\ key_class (fst x) = Some false) ->
  sort_keyed l [] = None.
Proof.
  intros Hall (a & Ha & Hca) (b & Hb & Hcb).
  destruct l as [|x l]; [ destruct Ha | ].
  inversion Hall as [|? ? Hx Hall']; subst. simpl.
  destruct (key_class (fst x)) as [c|] eqn:Ex; [ | congruence ].
  apply (sort_keyed_mixed c); auto; [ discriminate | ].
  destruct c.
  - exists b. split; auto. destruct Hb as [<-|]; auto. congruence.
  - exists a. split; auto. destruct Ha as [<-|]; auto. congruence.
Qed.

Lemma In_keyed key docs d :
  In d docs -> exists i, In (key i d, d) (keyed key docs).
Proof.
  unfold keyed. generalize 0%nat.
  induction docs as [|d' docs IH]; intros n Hin; [ destruct Hin | ].
  destruct Hin as [->|Hin].
  - exists n. now left.
  - destruct (IH (S n) Hin) as [i Hi]. exists i. now right.
Qed.

(** X11.  The sort of the chat history raises [TypeError] when the
    selected messages do not agree on the type of the sort key: with
    [created_at] values that are datetimes or strings, one selected
    message holding a string and another holding a datetime or no
    [created_at] at all (whose key is the clock's datetime) make the
    request fail; the store is left as it was. *)
Theorem chat_history_mixed_created_at
        (st : store) (conversation_id owner_email : option string)
        (limit : option Z) (n : Z) (utcnow : nat -> datetime)
        (Hlimit : Query 50 1 200 limit = inr n)
        (Hkeys : Forall datetime_or_str_created
                   (chat_selection st conversation_id owner_email n))
        (Hstr : exists d s,
            In d (chat_selection st conversation_id owner_email n)
            /\ dict_get d "created_at" = Some (VStr s))
        (Hdt : exists d,
            In d (chat_selection st conversation_id owner_email n)
            /\ (dict_get d "created_at" = None
                \/ exists t, dict_get d "created_at" = Some (VDatetime t))) :
  chat_history conversation_id owner_email limit utcnow (Some st)
  = (inl TypeError, Some st).
Proof.
  rewrite (chat_history_unfold _ _ _ _ n _ Hlimit).
  set (sel := chat_selection st conversation_id owner_email n) in *.
  unfold list_sort. rewrite sort_keyed_two_classes; auto.
  - unfold keyed. rewrite Forall_forall. intros kd Hin.
    apply in_map_iff in Hin. destruct Hin as ([i d] & <- & Hin).
    apply in_combine_r in Hin. rewrite Forall_forall in Hkeys.
    specialize (Hkeys d Hin). unfold datetime_or_str_created in Hkeys.
    unfold created_at_key; simpl.
    destruct (dict_get d "created_at") as [v|]; [ | discriminate ].
    destruct Hkeys as [H|H]; destruct v; discriminate.
  - destruct Hdt as (d & Hin & Hd).
    destruct (In_keyed (created_at_key utcnow) sel d Hin) as [i Hi].
    eexists. split; [ exact Hi | ]. unfold created_at_key; simpl.
    destruct Hd as [->|[t ->]]; reflexivity.
  - destruct Hstr as (d & s & Hin & Hd).
    destruct (In_keyed (created_at_key utcnow) sel d Hin) as [i Hi].
    eexists. split; [ exact Hi | ]. unfold created_at_key; simpl.
    now rewrite Hd.
Qed.

Lemma insert_keyed_last {A : Type} (x : value * A) (acc : list (value * A)) :
  Forall (fun y => key_le y x) acc -> insert_keyed x acc = Some (acc ++ [x]).
Proof.
  induction 1 as [|y acc (s & t & Hs & Ht & Hle) _ IH]; simpl; auto.
  rewrite Hs, Ht. simpl.
  destruct (Z.ltb_spec t s); [ lia | ]. now rewrite IH.
Qed.

Lemma sorted_app_head {A : Type} (Rel : A -> A -> Prop) l1 x l2 :
  StronglySorted Rel (l1 ++ x :: l2) -> Forall (fun y => Rel y x) l1.
Proof.
  induction l1 as [|y l1 IH]; simpl; intros H; constructor.
  - inversion H as [|? ? _ Hall]; subst.
    rewrite Forall_forall in Hall. apply Hall.
    apply in_or_app. right. now left.
  - apply IH. now inversion H.
Qed.

Lemma sort_keyed_sorted_input {A : Type} (todo : list (value * A)) :
  forall acc, StronglySorted key_le (acc ++ todo) ->
              sort_keyed todo acc = Some (acc ++ todo).
Proof.
  induction todo as [|x todo IH]; intros acc H; simpl.
  - now rewrite app_nil_r.
  - rewrite insert_keyed_last by (eapply sorted_app_head; exact H).
    rewrite IH; rewrite <- app_assoc; auto.
Qed.

Lemma keyed_of_timestamps utcnow docs : forall ts n,
  map (fun d => dict_get d "created_at") docs
  = map (fun t => Some (VDatetime t)) ts ->
  map (fun id => (created_at_key utcnow (fst id) (snd id), snd id))
      (combine (seq n (List.length docs)) docs)
  = combine (map VDatetime ts) docs.
Proof.
  induction docs as [|d docs IH]; intros [|t ts] n H; simpl in *;
    try discriminate; auto.
  injection H as Hd H. unfold created_at_key at 1. simpl. rewrite Hd.
  now rewrite (IH ts (S n) H).
Qed.

Lemma combine_timestamps_sorted (docs : list dict) : forall ts,
  List.length ts = List.length docs ->
  StronglySorted Z.le ts ->
  StronglySorted key_le (combine (map VDatetime ts) docs).
Proof.
  induction docs as [|d docs IH]; intros [|t ts] Hlen Hs; simpl in *;
    try discriminate; constructor.
  - apply IH; [ lia | now inversion Hs ].
  - inversion Hs as [|? ? _ Hall]; subst.
    rewrite Forall_forall in *. intros [k d'] Hin.
    pose proof (in_combine_l _ _ _ _ Hin) as Hk.
    apply in_map_iff in Hk. destruct Hk as (u & <- & Hu).
    exists t, u. repeat split; auto.
Qed.

(** X12.  A selection that is already in order comes back in store order:
    when every selected message has a datetime [created_at] and these are
    non-decreasing along the store order (equal times included), the
    history is the serialization of the selected messages as stored. *)
Theorem chat_history_keeps_store_order
        (st : store) (conversation_id owner_email : option string)
        (limit : option Z) (n : Z) (utcnow : nat -> datetime)
        (ts : list datetime)
        (Hlimit : Query 50 1 200 limit = inr n)
        (Hts : map (fun d => dict_get d "created_at")
                 (chat_selection st conversation_id owner_email n)
               = map (fun t => Some (VDatetime t)) ts)
        (Hsorted : StronglySorted Z.le ts) :
  chat_history conversation_id owner_email limit utcnow (Some st)
  = (inr (map serialize_doc
            (chat_selection st conversation_id owner_email n)),
     Some st).
Proof.
  rewrite (chat_history_unfold _ _ _ _ n _ Hlimit).
  set (sel := chat_selection st conversation_id owner_email n) in *.
  assert (Hlen : List.length ts = List.length sel).
  { apply (f_equal (@List.length _)) in Hts. rewrite !length_map in Hts.
    auto. }
  assert (Hk : keyed (created_at_key utcnow) sel
               = combine (map VDatetime ts) sel)
    by (apply (keyed_of_timestamps utcnow sel ts 0 Hts)).
  unfold list_sort. rewrite (sort_keyed_sorted_input _ []).
  - cbn [app]. now rewrite keyed_snd.
  - cbn [app]. rewrite Hk. now apply combine_timestamps_sorted.
Qed.

(* ------------------------------------------------------------------ *)
(** ** Owner filters and round trips through the lists *)

Lemma matches_owner d e :
  matches [("owner_email", VStr e)] d = true
  <-> dict_get d "owner_email" = Some (VStr e).
Proof.
  unfold matches; simpl.
  destruct (dict_get d "owner_email") as [v|]; [ | split; discriminate ].
  rewrite andb_true_r, value_eqb_eq. split; congruence.
Qed.

Lemma list_filter_owner e :
  e <> "" -> owner_filter [] (Some e) = [("owner_email", VStr e)].
Proof.
  intros He. unfold owner_filter, truthy_opt_str.
  destruct (String.eqb_spec e ""); [ contradiction | reflexivity ].
Qed.

Lemma plain_list_scoped default lo hi c e limit st :
  e <> "" ->
  scoped_to st c e
    ((limit <- lift (Query default lo hi limit) ;;
      docs <- get_documents c (owner_filter [] (Some e)) limit ;;
      ret (map serialize_doc docs)) (Some st)).
Proof.
  intros He. unfold scoped_to, bind.
  rewrite (list_filter_owner e He).
  unfold Query. destruct limit as [v|]; simpl.
  2:{ rewrite Forall_forall. intros r Hr.
      apply in_map_iff in Hr. destruct Hr as (d & <- & Hd).
      apply In_firstn, filter_In in Hd. destruct Hd as [Hin Hm].
      exists d. repeat split; auto. now apply matches_owner. }
  destruct ((lo <=? v) && (v <=? hi)); simpl; auto.
  rewrite Forall_forall. intros r Hr.
  apply in_map_iff in Hr. destruct Hr as (d & <- & Hd).
  apply In_firstn, filter_In in Hd. destruct Hd as [Hin Hm].
  exists d. repeat split; auto. now apply matches_owner.
Qed.

(** X13.  The list handlers scope by owner only for a non-empty
    [owner_email]: then every returned document is the public form of a
    stored document of that owner (or the limit is rejected).  An empty
    [owner_email], like an empty [conversation_id], is treated as not
    sent, so the query is not narrowed by it. *)
Theorem list_owner_scoping
        (st : store) (e : string) (limit : option Z) (He : e <> "") :
  scoped_to st "report" e (list_reports (Some e) limit (Some st))
  /\ scoped_to st "symptomcheck" e
       (list_symptom_checks (Some e) limit (Some st))
  /\ scoped_to st "reminder" e (list_reminders (Some e) limit (Some st))
  /\ (forall db,
        list_reports (Some "") limit db = list_reports None limit db
        /\ list_symptom_checks (Some "") limit db
           = list_symptom_checks None limit db
        /\ list_reminders (Some "") limit db = list_reminders None limit db)
  /\ (forall db conversation_id owner_email utcnow,
        chat_history (Some "") owner_email limit utcnow db
        = chat_history None owner_email limit utcnow db
        /\ chat_history conversation_id (Some "") limit utcnow db
           = chat_history conversation_id None limit utcnow db).
Proof.
  split; [ now apply plain_list_scoped | ].
  split; [ now apply plain_list_scoped | ].
  split; [ now apply plain_list_scoped | ].
  split; intros; repeat split; reflexivity.
Qed.

Lemma serialize_stored_reminder oid (r : Reminder.t) :
  serialize_doc (stored_doc oid r)
  = ("id", VStr (py_str (VObjectId oid))) :: present (model_dump r).
Proof. destruct r as [t s a [o|]]; reflexivity. Qed.

Lemma firstn_app_one {A : Type} (k : nat) (l : list A) (x : A) :
  firstn k (l ++ [x])
  = firstn k l ++ (if (List.length l <? k)%nat then [x] else []).
Proof.
  rewrite firstn_app.
  destruct (Nat.ltb_spec (List.length l) k) as [Hlt|Hge].
  - destruct (k - List.length l)%nat eqn:E; [ lia | ]. simpl.
    now rewrite firstn_nil.
  - replace (k - List.length l)%nat with 0%nat by lia. reflexivity.
Qed.

(** X14.  A reminder that was created shows up at the end of its owner's
    list, provided the limit leaves room: the list holds the first [limit]
    stored reminders of the owner, oldest first, so the new one is
    returned (with the identifier creation returned) exactly when fewer
    than [limit] reminders of that owner were stored before. *)
Theorem create_then_list_reminders
        (st : store) (reminder : Reminder.t) (e : string) (n : Z)
        (Howner : Reminder.owner_email reminder = Some e)
        (He : e <> "")
        (Hn : 1 <= n <= 100) :
  exists (st' : store) (new_id : string),
    create_reminder reminder (Some st) = (inr [("id", VStr new_id)], Some st')
    /\ list_reminders (Some e) (Some n) (Some st')
       = (inr (map serialize_doc
                 (firstn (Z.to_nat n)
                    (filter (matches [("owner_email", VStr e)])
                       (collections st "reminder")))
               ++ (if Z.of_nat
                        (List.length
                           (filter (matches [("owner_email", VStr e)])
                              (collections st "reminder"))) <? n
                   then [ ("id", VStr new_id)
                            :: present (model_dump reminder) ]
                   else [])),
          Some st').
Proof.
  eexists _, _. split; [ reflexivity | ].
  unfold list_reminders, bind, Query.
  destruct (Z.leb_spec 1 n), (Z.leb_spec n 100); try lia.
  cbv beta iota delta [lift ret get_documents andb].
  rewrite (list_filter_owner e He).
  fold (stored_doc (next_id st) reminder).
  rewrite collections_insert_same, filter_app. cbn [filter].
  assert (Hm : matches [("owner_email", VStr e)]
                 (stored_doc (next_id st) reminder) = true).
  { apply matches_owner. destruct reminder as [t s a o].
    simpl in Howner. subst o. reflexivity. }
  rewrite Hm, firstn_app_one, map_app.
  set (prev := filter _ (collections st "reminder")).
  destruct (Nat.ltb_spec (List.length prev) (Z.to_nat n)),
    (Z.ltb_spec (Z.of_nat (List.length prev)) n); try lia.
  - cbn [map]. now rewrite serialize_stored_reminder.
  - reflexivity.
Qed.

Lemma serialize_stored_report oid (r : Report.t) :
  serialize_doc (stored_doc oid r)
  = ("id", VStr (py_str (VObjectId oid)))
      :: map public_item (present (model_dump r)).
Proof. destruct r as [t ty [d|] [u|] [n|] o]; reflexivity. Qed.

(** X15.  A report that was created is listed for its owner with its date
    as ISO text: when the owner had no stored report, the list after the
    creation is the one new report, under the identifier creation
    returned, and a [report_date] it carries reads as the ISO-8601 text of
    that datetime. *)
Theorem create_then_list_reports
        (st : store) (report : Report.t) (n : Z)
        (He : Report.owner_email report <> "")
        (Hnew : forall d, In d (collections st "report") ->
                  dict_get d "owner_email"
                  <> Some (VStr (Report.owner_email report)))
        (Hn : 1 <= n <= 100) :
  exists (st' : store) (new_id : string) (listed : dict),
    create_report report (Some st) = (inr [("id", VStr new_id)], Some st')
    /\ list_reports (Some (Report.owner_email report)) (Some n) (Some st')
       = (inr [listed], Some st')
    /\ listed = ("id", VStr new_id)
                  :: map public_item (present (model_dump report))
    /\ dict_get listed "report_date"
       = option_map (fun t => VStr (isoformat t)) (Report.report_date report)
    /\ dict_get listed "owner_email"
       = Some (VStr (Report.owner_email report)).
Proof.
  eexists _, _, _. split; [ reflexivity | ].
  split; [ | split; [ reflexivity | ] ].
  - unfold list_reports, bind, Query.
    destruct (Z.leb_spec 1 n), (Z.leb_spec n 100); try lia.
    cbv beta iota delta [lift ret get_documents andb].
    rewrite (list_filter_owner _ He).
    fold (stored_doc (next_id st) report).
    rewrite collections_insert_same, filter_app. cbn [filter].
    rewrite filter_nothing.
    2:{ intros d Hin. destruct (matches _ d) eqn:E; auto.
        apply matches_owner in E. now destruct (Hnew d Hin). }
    assert (Hm : matches [("owner_email", VStr (Report.owner_email report))]
                   (stored_doc (next_id st) report) = true).
    { apply matches_owner.
      destruct report as [t ty [d|] [u|] [no|] o]; reflexivity. }
    rewrite Hm. cbn [app].
    destruct (Z.to_nat n) eqn:En; [ lia | ].
    cbn [firstn map]. rewrite firstn_nil.
    now rewrite serialize_stored_report.
  - destruct report as [t ty [d|] [u|] [no|] o]; split; reflexivity.
Qed.

(* ------------------------------------------------------------------ *)
(** ** More on symptom checks *)

(** X16.  An empty symptom list is accepted, and its score is the weight
    of the severity alone: 0.2 without a severity, 0.3, 0.6 and 0.85 for
    mild, moderate and severe.  (What the schema rejects is a [risk_score]
    sent outside 0 to 1, with or without symptoms.) *)
Theorem submit_no_symptoms
        (st : store) (entry : SymptomCheck.t)
        (Hempty : SymptomCheck.symptoms entry = []) :
  fst (submit_symptoms entry (Some st))
  = match SymptomCheck_new entry with
    | inr _ =>
        inr [ ("id", VStr (py_str (VObjectId (next_id st))));
              ("risk_score",
                VFloat (Risk.weight (SymptomCheck.severity entry)));
              ("assessment", VStr assessment_text) ]
    | inl _ => inl (RequestValidationError "risk_score")
    end.
Proof.
  destruct (SymptomCheck_new_cases entry) as [Hok|Hbad].
  - rewrite (submit_symptoms_run st entry Hok), Hok, Hempty.
    cbn [fst List.length].
    destruct (SymptomCheck.severity entry) as [[ | | ]|];
      vm_compute; reflexivity.
  - rewrite (submit_symptoms_rejected _ entry Hbad), Hbad. reflexivity.
Qed.

(** X17.  Of an accepted submission only the two computed fields are
    replaced: the one document appended to the symptom checks has the
    submitted symptoms, duration, severity, notes and owner (an unset one
    is left out), and beside these, [_id], [assessment] and [risk_score]
    it has no field. *)
Theorem submit_symptoms_keeps_submitted
        (st : store) (entry : SymptomCheck.t)
        (Hvalid : SymptomCheck_new entry = inr entry) :
  exists (st' : store) (doc : dict),
    snd (submit_symptoms entry (Some st)) = Some st'
    /\ (forall c, collections st' c
                  = if String.eqb c "symptomcheck"
                    then collections st c ++ [doc]
                    else collections st c)
    /\ dict_get doc "symptoms"
       = Some (VStrList (SymptomCheck.symptoms entry))
    /\ dict_get doc "duration"
       = option_map VStr (SymptomCheck.duration entry)
    /\ dict_get doc "severity"
       = option_map (fun v => VStr (Severity_str v))
           (SymptomCheck.severity entry)
    /\ dict_get doc "notes" = option_map VStr (SymptomCheck.notes entry)
    /\ dict_get doc "owner_email"
       = option_map VStr (SymptomCheck.owner_email entry)
    /\ forall k,
         ~ In k [ "_id"; "symptoms"; "duration"; "severity"; "notes";
                  "assessment"; "risk_score"; "owner_email" ] ->
         dict_get doc k = None.
Proof.
  rewrite (submit_symptoms_run st entry Hvalid). cbn [snd]. eexists _, _.
  split; [ reflexivity | ].
  split; [ intros c; reflexivity | ].
  clear Hvalid.
  generalize (Risk.spec_risk (List.length (SymptomCheck.symptoms entry))
                (SymptomCheck.severity entry)).
  intros r.
  destruct entry as [sy [du|] [se|] [no|] a rs [ow|]];
    unfold with_client_fields;
    (do 5 (split; [ reflexivity | ]));
    intros k Hk; cbv - [String.eqb In];
    repeat match goal with
           | |- context [String.eqb ?a k] =>
               destruct (String.eqb_spec a k) as [<-|?]
           end; try reflexivity;
    exfalso; apply Hk; simpl; tauto.
Qed.

End MoreHandlerFacts.

(* ------------------------------------------------------------------ *)
(** ** The further properties at work on the example data *)

Lemma create_then_get_profile_witness :
  email_taken demo_store (UserProfile.email demo_new_profile) = false
  /\ exists (st' : store) (new_id : string),
       create_profile demo_new_profile (Some demo_store)
       = (inr [("id", VStr new_id)], Some st')
       /\ get_profile (UserProfile.email demo_new_profile) (Some st')
          = (inr (("id", VStr new_id) :: present (model_dump demo_new_profile)),
             Some st').
Proof.
  split; [ reflexivity | ].
  apply (create_then_get_profile demo_store demo_new_profile). reflexivity.
Defined.

Lemma create_profile_twice_witness :
  email_taken demo_store (UserProfile.email demo_new_profile) = false
  /\ UserProfile.email demo_new_profile = UserProfile.email demo_new_profile
  /\ exists st' : store,
       snd (create_profile demo_new_profile (Some demo_store)) = Some st'
       /\ collections st' "userprofile"
          = collections demo_store "userprofile"
              ++ [stored_doc (next_id demo_store) demo_new_profile]
       /\ create_profile demo_new_profile (Some st')
          = (inl (HTTPException 400 "Profile with this email already exists"),
             Some st').
Proof.
  split; [ reflexivity | ]. split; [ reflexivity | ].
  apply (create_profile_twice demo_store demo_new_profile demo_new_profile);
    reflexivity.
Defined.



Lemma serialize_fieldwise_in_order_witness :
  NoDup (keys demo_profile)
  /\ (dict_get demo_profile "_id" = None \/ dict_get demo_profile "id" = None)
  /\ serialize_doc demo_profile = map public_item demo_profile
  /\ List.length (serialize_doc demo_profile) = List.length demo_profile.
Proof.
  assert (Hdict : NoDup (keys demo_profile)) by nodup_literals.
  split; [ exact Hdict | ]. split; [ right; reflexivity | ].
  apply (serialize_fieldwise_in_order demo_profile Hdict (or_intror eq_refl)).
Defined.

Lemma chat_then_history_witness :
  ChatMessage.conversation_id demo_new_conversation = Some "c2"
  /\ "c2" <> ""
  /\ (forall d, In d (collections demo_store "chatmessage") ->
                dict_get d "conversation_id" <> Some (VStr "c2"))
  /\ Z.of_nat 0 <= Z.of_nat 1
  /\ exists st' : store,
       snd (chat demo_new_conversation (Some demo_store)) = Some st'
       /\ chat_history (Some "c2") None None Z.of_nat (Some st')
          = (inr [ ("id", VStr (py_str (VObjectId (next_id demo_store))))
                     :: present (model_dump demo_new_conversation);
                   ("id",
                     VStr (py_str (VObjectId (N.succ (next_id demo_store)))))
                     :: present (model_dump (reply_to demo_new_conversation)) ],
             Some st').
Proof.
  assert (Hnew : forall d, In d (collections demo_store "chatmessage") ->
                           dict_get d "conversation_id" <> Some (VStr "c2")).
  { intros d [<-|[<-|[<-|[]]]]; discriminate. }
  split; [ reflexivity | ]. split; [ discriminate | ].
  split; [ exact Hnew | ]. split; [ lia | ].
  assert (Hc : "c2" <> "") by discriminate.
  assert (Hclock : Z.of_nat 0 <= Z.of_nat 1) by lia.
  apply (chat_then_history demo_store demo_new_conversation "c2" Z.of_nat
           eq_refl Hc Hnew Hclock).
Defined.

Lemma chat_history_mixed_created_at_witness :
  Query 50 1 200 None = inr 50
  /\ Forall datetime_or_str_created
       (chat_selection demo_mixed_store (Some "c1") None 50)
  /\ chat_history (Some "c1") None None (fun _ => 0) (Some demo_mixed_store)
     = (inl TypeError, Some demo_mixed_store).
Proof.
  assert (Hsel : chat_selection demo_mixed_store (Some "c1") None 50
                 = collections demo_mixed_store "chatmessage")
    by (vm_compute; reflexivity).
  assert (Hkeys : Forall datetime_or_str_created
                    (chat_selection demo_mixed_store (Some "c1") None 50)).
  { rewrite Hsel.
    apply Forall_cons; [ left; reflexivity | ].
    apply Forall_cons; [ right; reflexivity | apply Forall_nil ]. }
  split; [ reflexivity | ]. split; [ exact Hkeys | ].
  apply (chat_history_mixed_created_at demo_mixed_store (Some "c1") None None
           50 (fun _ => 0) eq_refl Hkeys).
  - eexists _, "2024-02-29". rewrite Hsel.
    split; [ right; left; reflexivity | reflexivity ].
  - eexists. rewrite Hsel. split; [ left; reflexivity | ].
    right. eexists. reflexivity.
Defined.

Lemma chat_history_keeps_store_order_witness :
  Query 50 1 200 (Some 2) = inr 2
  /\ map (fun d => dict_get d "created_at")
       (chat_selection demo_store (Some "c1") None 2)
     = map (fun t => Some (VDatetime t))
         [63844809909000123; 63844809910000000]
  /\ StronglySorted Z.le [63844809909000123; 63844809910000000]
  /\ chat_history (Some "c1") None (Some 2) (fun _ => 0) (Some demo_store)
     = (inr (map serialize_doc (chat_selection demo_store (Some "c1") None 2)),
        Some demo_store).
Proof.
  assert (Hs : StronglySorted Z.le [63844809909000123; 63844809910000000]).
  { repeat constructor. lia. }
  split; [ reflexivity | ]. split; [ reflexivity | ]. split; [ exact Hs | ].
  apply (chat_history_keeps_store_order demo_store (Some "c1") None (Some 2) 2
           (fun _ => 0) [63844809909000123; 63844809910000000]
           eq_refl eq_refl Hs).
Defined.

Lemma list_owner_scoping_witness :
  "ada@example.org" <> ""
  /\ scoped_to demo_lists_store "report" "ada@example.org"
       (list_reports (Some "ada@example.org") (Some 10)
          (Some demo_lists_store))
  /\ fst (list_reports (Some "ada@example.org") (Some 10)
            (Some demo_lists_store))
     = inr [ [ ("id", VStr "000000000000000000000001");
               ("title", VStr "Blood panel");
               ("owner_email", VStr "ada@example.org") ];
             [ ("id", VStr "000000000000000000000003");
               ("title", VStr "Prescription");
               ("owner_email", VStr "ada@example.org") ] ]
  /\ scoped_to demo_lists_store "reminder" "ada@example.org"
       (list_reminders (Some "ada@example.org") (Some 10)
          (Some demo_lists_store))
  /\ fst (list_reminders (Some "ada@example.org") (Some 10)
            (Some demo_lists_store))
     = inr [ [ ("id", VStr "000000000000000000000005");
               ("title", VStr "Walk");
               ("owner_email", VStr "ada@example.org") ] ]
  /\ list_reminders (Some "") (Some 10) (Some demo_lists_store)
     = list_reminders None (Some 10) (Some demo_lists_store)
  /\ fst (list_reminders (Some "") (Some 10) (Some demo_lists_store))
     = inr [ [ ("id", VStr "000000000000000000000004");
               ("title", VStr "Vitamin D");
               ("owner_email", VStr "bob@example.org") ];
             [ ("id", VStr "000000000000000000000005");
               ("title", VStr "Walk");
               ("owner_email", VStr "ada@example.org") ] ].
Proof.
  assert (He : "ada@example.org" <> "") by discriminate.
  split; [ exact He | ].
  destruct (list_owner_scoping demo_lists_store "ada@example.org" (Some 10)
              He) as (H1 & _ & H3 & H4 & _).
  split; [ exact H1 | ].
  split; [ vm_compute; reflexivity | ].
  split; [ exact H3 | ].
  split; [ vm_compute; reflexivity | ].
  split; [ apply (H4 (Some demo_lists_store)) | ].
  vm_compute; reflexivity.
Defined.

Lemma create_then_list_reminders_witness :
  Reminder.owner_email demo_reminder = Some "ada@example.org"
  /\ "ada@example.org" <> ""
  /\ 1 <= 10 <= 100
  /\ exists (st' : store) (new_id : string),
       create_reminder demo_reminder (Some demo_store)
       = (inr [("id", VStr new_id)], Some st')
       /\ list_reminders (Some "ada@example.org") (Some 10) (Some st')
          = (inr [ ("id", VStr new_id) :: present (model_dump demo_reminder) ],
             Some st').
Proof.
  split; [ reflexivity | ]. split; [ discriminate | ]. split; [ lia | ].
  assert (He : "ada@example.org" <> "") by discriminate.
  assert (Hn : 1 <= 10 <= 100) by lia.
  destruct (create_then_list_reminders demo_store demo_reminder
              "ada@example.org" 10 eq_refl He Hn)
    as (st' & new_id & Hc & Hl).
  exists st', new_id. split; [ exact Hc | ]. rewrite Hl. reflexivity.
Defined.

Lemma create_then_list_reports_witness :
  Report.owner_email demo_report <> ""
  /\ (forall d, In d (collections demo_store "report") ->
                dict_get d "owner_email"
                <> Some (VStr (Report.owner_email demo_report)))
  /\ 1 <= 10 <= 100
  /\ exists (st' : store) (new_id : string) (listed : dict),
       create_report demo_report (Some demo_store)
       = (inr [("id", VStr new_id)], Some st')
       /\ list_reports (Some (Report.owner_email demo_report)) (Some 10)
            (Some st')
          = (inr [listed], Some st')
       /\ dict_get listed "report_date"
          = Some (VStr "2024-02-29T13:25:09.000123").
Proof.
  assert (Hnew : forall d, In d (collections demo_store "report") ->
                   dict_get d "owner_email"
                   <> Some (VStr (Report.owner_email demo_report))).
  { intros d []. }
  split; [ discriminate | ]. split; [ exact Hnew | ]. split; [ lia | ].
  assert (He : Report.owner_email demo_report <> "") by discriminate.
  assert (Hn : 1 <= 10 <= 100) by lia.
  destruct (create_then_list_reports demo_store demo_report 10 He Hnew Hn)
    as (st' & new_id & listed & Hc & Hl & _ & Hdate & _).
  exists st', new_id, listed. split; [ exact Hc | ]. split; [ exact Hl | ].
  exact Hdate.
Defined.

Lemma submit_no_symptoms_witness :
  SymptomCheck.symptoms demo_no_symptoms = []
  /\ fst (submit_symptoms demo_no_symptoms (Some demo_store))
     = inr [ ("id", VStr (py_str (VObjectId (next_id demo_store))));
             ("risk_score", VFloat Float64.lit_0_6);
             ("assessment", VStr assessment_text) ].
Proof.
  split; [ reflexivity | ].
  rewrite (submit_no_symptoms demo_store demo_no_symptoms eq_refl).
  reflexivity.
Defined.

Lemma submit_symptoms_keeps_submitted_witness :
  SymptomCheck_new demo_symptoms = inr demo_symptoms
  /\ exists (st' : store) (doc : dict),
       snd (submit_symptoms demo_symptoms (Some demo_store)) = Some st'
       /\ collections st' "symptomcheck" = [doc]
       /\ dict_get doc "symptoms" = Some (VStrList ["cough"; "fever"])
       /\ dict_get doc "duration" = Some (VStr "3 days")
       /\ dict_get doc "severity" = Some (VStr "moderate")
       /\ dict_get doc "notes" = None
       /\ dict_get doc "owner_email" = Some (VStr "ada@example.org")
       /\ dict_get doc "created_at" = None.
Proof.
  split; [ reflexivity | ].
  destruct (submit_symptoms_keeps_submitted demo_store demo_symptoms eq_refl)
    as (st' & doc & Hrun & Hcoll & Hsy & Hdu & Hse & Hno & How & Hrest).
  exists st', doc. split; [ exact Hrun | ].
  split; [ rewrite Hcoll; reflexivity | ].
  split; [ exact Hsy | ]. split; [ exact Hdu | ]. split; [ exact Hse | ].
  split; [ exact Hno | ]. split; [ exact How | ].
  apply Hrest. simpl. intuition discriminate.
Defined.
